(** * ElonBot: a shallow embedding of [binance_trade_bot/models/elon_bot.py]

    The methods of class [ElonBot] are embedded as functions in a small
    monad that threads the state of the outside world, collects the
    observable events of a run (log lines, sleeps, calls to the exchange
    client, HTTP requests) and propagates Python exceptions.

    Conventions.
    - The source is read statement by statement; where a colon is missing
      ([else], [if ticker is not None], [return None:]) the statement is
      read as the one it spells.
    - The instance attributes read by the methods ([self.crypto_rules],
      [self.order_size], ...) are the fields of the record [ElonBot]; the
      constructor and [info] are embedded apart, on the attribute
      dictionary of the object. [self.manager] and [self.logger] are
      collaborators.
    - Python binds arguments by position and resolves names at run time:
      the embedding keeps the order of the arguments of every call and
      raises [NameError], [AttributeError] and [TypeError] where Python
      does.
    - A [Decimal] amount is the rational it denotes ([Q]). [+], [*] and
      [/] on [Decimal]s round their exact result to the 28 significant
      digits of the default [decimal] context, half to even, and a
      division by a zero [Decimal] raises, as the [decimal] module does.
      The exponent bounds of the context, infinities and NaN are outside
      the model. [float(s)] and [Decimal(s)] are two readings of the order
      size: [Decimal(s)] is the number that [s] spells, [float(s)] the
      binary64 number nearest to it, and a comparison of a [float] with a
      [Decimal] compares the two numbers exactly.
    - Library functions ([json.loads], [unidecode], [re.search], [float],
      [Decimal]) and collaborators (exchange client, [requests], Google
      Vision, the Twitter rule reset) are the fields of the records
      [Library] and [Collaborators]: the general theorems hold for all of
      them. [Demo] gives concrete ones on which the methods are evaluated. *)

From Stdlib Require Import ZArith QArith List String Ascii Bool Lia Lqa.
Import ListNotations.

Set Implicit Arguments.
Set Warnings "-register-all".
Open Scope string_scope.

(* ================================================================== *)
(** ** Python values, exceptions and outcomes *)

(** The reasons for which the code raises [ValueError]. *)
Inductive value_error : Type :=
| OrderSizeExceedsMaxMargin (order_size : string) (max_cash : Q)
    (* f"Order size exceeds max margin: {self.order_size} > {max_cash}" *)
| CouldNotConvertToFloat (s : string)        (* float(s) on a non-number *)
| NegativeSleepLength.                       (* time.sleep(d) with d < 0 *)

Inductive exn : Type :=
| NameError (name : string)
| AttributeError (attr : string)
| TypeError (msg : string)
| KeyError (key : string)
| ValueError (v : value_error)
| JSONDecodeError
| ReError                      (* re.error: the pattern does not compile *)
| DivisionByZero               (* decimal.DivisionByZero: x / 0 with x <> 0 *)
| DivisionUndefined            (* decimal.InvalidOperation: 0 / 0 *)
| ConversionSyntax             (* decimal.InvalidOperation: Decimal("abc") *)
| External (what : string).    (* raised inside a collaborator's code *)

Inductive outcome (A : Type) : Type :=
| Returned (a : A)
| Raised (e : exn).
Arguments Raised {A} e.

(** What a collaborator answers: a value, or an exception of its own. *)
Inductive reply (A : Type) : Type :=
| Ok (a : A)
| Fails (what : string).
Arguments Fails {A} what.

Definition outcome_of_reply {A} (r : reply A) : outcome A :=
  match r with
  | Ok a => Returned a
  | Fails what => Raised (External what)
  end.

(** The arguments [coin] and [ticker] of [buy], [sell] and [trade]: Python
    does not enforce the annotations [coin: Coin], [ticker: str], so both
    kinds of value can reach both positions. *)
Inductive pyval : Type :=
| PStr (s : string)
| PCoin (symbol : string).      (* a [Coin] object; [.symbol] is its attribute *)

(** [v.symbol] *)
Definition getattr_symbol (v : pyval) : outcome pyval :=
  match v with
  | PCoin symbol => Returned (PStr symbol)
  | PStr _ => Raised (AttributeError "symbol")
  end.

(** Decoded JSON, as [json.loads] returns it. An object is the list of the
    items of the resulting [dict]. *)
Inductive json : Type :=
| JNull
| JBool (b : bool)
| JNum (n : Z)
| JStr (s : string)
| JArr (items : list json)
| JObj (fields : list (string * json)).

(** An order as the exchange client reports it. *)
Definition order : Type := string.

(** The response of the streaming GET: [iter_lines] yields the lines one by
    one, and a read can fail. *)
Record response : Type := {
  status_code : Z;
  text : string;
  iter_lines : list (reply string)
}.

(** The response of [client.text_detection]. *)
Record annotate_response : Type := {
  error_message : string;            (* response.error.message *)
  text_annotations : list string     (* [text.description for text in texts] *)
}.

(* ================================================================== *)
(** ** Events of a run *)

Inductive log_msg : Type :=
| MsgTweetReceived (tweet_json : json)
| MsgMatched (re_pattern ticker : string)
| MsgNoFunds (ticker symbol : pyval)
| MsgWaitingBeforeSell (auto_sell_delay : Q)
| MsgSubscribing (status : Z)
| MsgCannotGetStream (status : Z) (body : string)
| MsgSleepingAndRetrying.

Inductive event : Type :=
| EvInfo (m : log_msg)                       (* self.logger.info *)
| EvError (m : log_msg)                      (* self.logger.error *)
| EvSleep (seconds : Q)                      (* time.sleep *)
| EvGetAskPrice (ticker quote : pyval) (r : reply Q)
| EvGetAvailableAsset (asset ticker : pyval) (r : reply (Q * Q))
| EvGetMaxBorrowable (asset ticker : pyval) (r : reply Q)
| EvBuy (quantity : Q) (ticker funding : pyval) (r : reply (option order))
| EvSell (quantity : Q) (ticker proceeds : pyval) (r : reply (option order))
| EvResetRules (user : string)
| EvHttpGet (r : reply response)             (* requests.get(..., stream=True) *)
| EvImportVision
| EvTextDetection (uri : json).

(* ================================================================== *)
(** ** The monad: world state, trace of events, exceptions *)

Section Monad.
Variable W : Type.

Definition M (A : Type) : Type := W -> outcome A * W * list event.

Definition ret {A} (a : A) : M A := fun w => (Returned a, w, []).

Definition raise {A} (e : exn) : M A := fun w => (Raised e, w, []).

Definition bind {A B} (m : M A) (k : A -> M B) : M B :=
  fun w =>
    match m w with
    | (Returned a, w1, t1) =>
        match k a w1 with (r, w2, t2) => (r, w2, (t1 ++ t2)%list) end
    | (Raised e, w1, t1) => (Raised e, w1, t1)
    end.

Definition emit (e : event) : M unit := fun w => (Returned tt, w, [e]).

Definition lift {A} (o : outcome A) : M A := fun w => (o, w, []).

(** [try: body  except Exception as ex: handler ex] *)
Definition try_except {A} (body : M A) (handler : exn -> M A) : M A :=
  fun w =>
    match body w with
    | (Returned a, w1, t1) => (Returned a, w1, t1)
    | (Raised e, w1, t1) =>
        match handler e w1 with (r, w2, t2) => (r, w2, (t1 ++ t2)%list) end
    end.

(** A call to a collaborator: the event records the call and its answer. *)
Definition call {A} (f : W -> reply A * W) (ev : reply A -> event) : M A :=
  fun w => match f w with (r, w1) => (outcome_of_reply r, w1, [ev r]) end.
End Monad.

Arguments ret {W A} a.
Arguments raise {W A} e.
Arguments emit {W} e.
Arguments lift {W A} o.

Declare Scope py_scope.
Delimit Scope py_scope with py.
Notation "x <- m ;; k" := (bind m (fun x => k))
  (at level 61, m at next level, right associativity) : py_scope.
Notation "' pat <- m ;; k" := (bind m (fun x => match x with pat => k end))
  (at level 61, pat pattern, m at next level, right associativity) : py_scope.
Notation "m ;;; k" := (bind m (fun _ => k))
  (at level 61, right associativity) : py_scope.

(** The three components of a finished run. *)
Definition result_of {W A} (x : outcome A * W * list event) : outcome A := fst (fst x).
Definition world_of {W A} (x : outcome A * W * list event) : W := snd (fst x).
Definition trace_of {W A} (x : outcome A * W * list event) : list event := snd x.

(** Exceptions in pure code. *)
Definition obind {A B} (o : outcome A) (k : A -> outcome B) : outcome B :=
  match o with
  | Returned a => k a
  | Raised e => Raised e
  end.

(* ================================================================== *)
(** ** Library functions and collaborators *)

(** Pure library functions. [None] stands for the exception the function
    raises on that argument. *)
Record Library : Type := {
  json_loads : string -> option json;       (* json.loads; JSONDecodeError *)
  unidecode : string -> string;             (* unidecode.unidecode *)
  re_search_I : string -> string -> option bool;
      (* [re.search(pattern, t, flags=re.I) is not None]; re.error *)
  py_float : string -> option Q;            (* float(s); ValueError *)
  py_Decimal : string -> option Q;          (* Decimal(s); InvalidOperation *)
  py_format : json -> string                (* how an f-string prints a non-str value *)
}.

(** Collaborators, whose answers depend on the state [W] of the world. *)
Record Collaborators (W : Type) : Type := {
  (* self.manager: the exchange client *)
  get_ask_price : pyval -> pyval -> W -> reply Q * W;
  get_available_asset : pyval -> pyval -> W -> reply (Q * Q) * W;
  get_max_borrowable : pyval -> pyval -> W -> reply Q * W;
  manager_buy : Q -> pyval -> pyval -> W -> reply (option order) * W;
  manager_sell : Q -> pyval -> pyval -> W -> reply (option order) * W;
  (* twitter_utils and requests *)
  reset_twitter_subscription_rules : string -> W -> reply unit * W;
  requests_get : Z -> W -> reply response * W;
      (* requests.get(stream_url, headers=create_headers(), params=params,
                      stream=True, timeout=timeout) *)
  (* google.cloud.vision *)
  import_vision : W -> reply unit * W;
  text_detection : json -> W -> reply annotate_response * W
      (* ImageAnnotatorClient(), Image(), client.text_detection(image) *)
}.

(** The attributes of an instance that the methods read. *)
Record ElonBot : Type := {
  user : string;
  crypto_rules : list (string * string);   (* dict of pattern -> ticker, in insertion order *)
  bridge : pyval;
  auto_buy_delay : Q;
  auto_sell_delay : Q;
  use_image_signal : bool;
  margin_type : string;
  order_size : string;
  process_tweet_text : option string
}.

(* ================================================================== *)
(** ** Decimal arithmetic and small Python helpers *)

(** The integer nearest to [n / d], for [0 <= n] and [0 < d]; of two
    nearest integers, the even one. *)
Definition round_half_even (n d : Z) : Z :=
  let q := (n / d)%Z in
  match (2 * (n mod d) ?= d)%Z with
  | Lt => q
  | Gt => (q + 1)%Z
  | Eq => if Z.even q then q else (q + 1)%Z
  end.

Fixpoint ilog_steps (fuel : nat) (base n : Z) : Z :=
  match fuel with
  | O => 0%Z
  | S k => if (n <? base)%Z then 0%Z else (1 + ilog_steps k base (n / base))%Z
  end.

(** The number of digits of [n] in the base, less one, for [0 < n]. *)
Definition ilog (base n : Z) : Z :=
  ilog_steps (S (Z.to_nat (Z.log2 n))) base n.

(** [base ^ k <= n / d], for [0 < d]. *)
Definition reaches (base n d k : Z) : bool :=
  if (0 <=? k)%Z then (d * base ^ k <=? n)%Z else (d <=? n * base ^ (- k))%Z.

(** [q] rounded to a number of significant digits of the base, half to
    even: with [base ^ k] the weight of the leading digit of [|q|], the
    result is a multiple of [base ^ (k - (digits - 1))]. *)
Definition round_significant (base digits : Z) (q : Q) : Q :=
  let n := Z.abs (Qnum q) in
  let d := Zpos (Qden q) in
  if (n =? 0)%Z then 0%Q
  else
    let k := (ilog base n - ilog base d)%Z in
    let leading := if reaches base n d k then k else (k - 1)%Z in
    let e := (leading - (digits - 1))%Z in
    let coefficient :=
      if (0 <=? e)%Z then round_half_even n (d * base ^ e)
      else round_half_even (n * base ^ (- e)) d in
    let magnitude :=
      if (0 <=? e)%Z then inject_Z (coefficient * base ^ e)
      else Qmake coefficient (Z.to_pos (base ^ (- e))) in
    Qred (if (Qnum q <? 0)%Z then Qopp magnitude else magnitude).

(** The default context of the [decimal] module: [prec=28],
    [rounding=ROUND_HALF_EVEN]. *)
Definition round28 : Q -> Q := round_significant 10 28.

(** [x + y], [x * y] and [x / y] on [Decimal]s. *)
Definition dec_add (x y : Q) : Q := round28 (x + y).

Definition dec_mul (x y : Q) : Q := round28 (x * y).

Definition dec_div (x y : Q) : outcome Q :=
  if Qeq_bool y 0 then
    Raised (if Qeq_bool x 0 then DivisionUndefined else DivisionByZero)
  else Returned (round28 (x / y)).

Definition is_division_error (e : exn) : bool :=
  match e with
  | DivisionByZero | DivisionUndefined => true
  | _ => false
  end.

(** [x > y] *)
Definition Qgt_bool (x y : Q) : bool := negb (Qle_bool x y).

Definition nonempty (s : string) : bool := negb (String.eqb s "").

(** A name that is read but bound neither in the enclosing function nor at
    module level. The module binds its imports and [ElonBot] only; the
    two names read in this way are [self], inside the static method
    [get_image_text], and [current_coin], inside [has_crypto_tweet]. *)
Definition unbound_name {W A} (name : string) : M W A := raise (NameError name).

(** [d[key]] on decoded JSON. *)
Fixpoint assoc (key : string) (fields : list (string * json)) : option json :=
  match fields with
  | [] => None
  | (k, v) :: rest => if String.eqb k key then Some v else assoc key rest
  end.

Definition subscript (v : json) (key : string) : outcome json :=
  match v with
  | JObj fields =>
      match assoc key fields with
      | Some x => Returned x
      | None => Raised (KeyError key)
      end
  | _ => Raised (TypeError "not subscriptable by a str key")
  end.

(** [d.get(key, default)] *)
Definition dict_get (v : json) (key : string) (default : json) : outcome json :=
  match v with
  | JObj fields =>
      match assoc key fields with
      | Some x => Returned x
      | None => Returned default
      end
  | _ => Raised (AttributeError "get")
  end.

(** [(v[0:1] or [{}])[0]] *)
Definition first_or_empty_dict (v : json) : outcome json :=
  match v with
  | JArr [] => Returned (JObj [])
  | JArr (x :: _) => Returned x
  | JStr EmptyString => Returned (JObj [])
  | JStr (String c _) => Returned (JStr (String c EmptyString))
  | _ => Raised (TypeError "not sliceable")
  end.

(** [uri is None or uri == ''] *)
Definition is_none_or_empty (uri : json) : bool :=
  match uri with
  | JNull => true
  | JStr EmptyString => true
  | _ => false
  end.

(** [' '.join(parts)] *)
Fixpoint join_space (parts : list string) : string :=
  match parts with
  | [] => ""
  | [p] => p
  | p :: rest => p ++ " " ++ join_space rest
  end.

(** How an f-string prints the value of [tweet_json['data']['text']]. *)
Definition format_value (lib : Library) (v : json) : string :=
  match v with
  | JStr s => s
  | _ => py_format lib v
  end.

(** *** Reading a trace *)

(** The calls that place an order. *)
Definition is_order_call (e : event) : bool :=
  match e with
  | EvBuy _ _ _ _ | EvSell _ _ _ _ => true
  | _ => false
  end.

Definition order_calls (tr : list event) : list event := filter is_order_call tr.

Definition is_http_get (e : event) : bool :=
  match e with
  | EvHttpGet _ => true
  | _ => false
  end.

(** The connection attempts. *)
Definition connections (tr : list event) : list event := filter is_http_get tr.

(** The answer to the first balance query of a run. *)
Fixpoint queried_available (tr : list event) : option (reply (Q * Q)) :=
  match tr with
  | [] => None
  | EvGetAvailableAsset _ _ r :: _ => Some r
  | _ :: rest => queried_available rest
  end.

(** Control after a loop body or a loop: a [return] was executed, or
    control reached the end. *)
Inductive ctl (A : Type) : Type :=
| Return (a : A)
| Next.
Arguments Next {A}.

(* ================================================================== *)
(** ** The methods of [ElonBot] *)

Section Methods.
Variable W : Type.
Variable lib : Library.
Variable env : Collaborators W.
Variable self : ElonBot.

Local Open Scope py_scope.
Local Abbreviation M := (M W).

(** [time.sleep(d)] *)
Definition time_sleep (d : Q) : M unit :=
  if Qle_bool 0 d then emit (EvSleep d)
  else raise (ValueError NegativeSleepLength).

(** *** get_image_text (static method, lines 77-99) *)

(** [self.logger.info(...)] inside the static method, whose only
    parameter is [uri]: evaluating [self] fails before anything is
    logged. *)
Definition static_logger_info : M unit := unbound_name "self".

Definition get_image_text (uri : json) : M string :=
  if is_none_or_empty uri then ret ""
  else
    call (import_vision env) (fun _ => EvImportVision) ;;;
    try_except
      (response <- call (text_detection env uri) (fun _ => EvTextDetection uri) ;;
       if nonempty (error_message response) then
         (* self.logger.info('{}\nFor more info ...'.format(...)) *)
         static_logger_info ;;;
         ret ""
       else
         let result := join_space (text_annotations response) in
         (* self.logger.info('Extracted from the image:', result) *)
         static_logger_info ;;;
         ret result)
      (fun ex =>
         (* self.logger.info('Failed to process attached image', ex) *)
         static_logger_info ;;;
         ret "").

(** *** buy (lines 101-116) *)

(** Lines 108-114: the amount of bridge asset to spend. *)
Definition total_cash (available_cash borrowable_cash : Q) : outcome Q :=
  if String.eqb (order_size self) "max" then
    Returned (dec_add available_cash borrowable_cash)
  else
    obind (dec_div (dec_add available_cash borrowable_cash) available_cash) (fun max_cash =>
    match py_float lib (order_size self) with
    | None => Raised (ValueError (CouldNotConvertToFloat (order_size self)))
    | Some requested =>
        if Qgt_bool requested max_cash then
          Raised (ValueError (OrderSizeExceedsMaxMargin (order_size self) max_cash))
        else
          match py_Decimal lib (order_size self) with
          | None => Raised ConversionSyntax
          | Some fraction => Returned (dec_mul available_cash fraction)
          end
    end).

Definition buy (coin ticker : pyval) : M (option order) :=
  symbol <- lift (getattr_symbol coin) ;;
  ask_price <- call (get_ask_price env ticker symbol) (EvGetAskPrice ticker symbol) ;;
  symbol <- lift (getattr_symbol coin) ;;
  '(available_cash, _) <-
     call (get_available_asset env symbol ticker) (EvGetAvailableAsset symbol ticker) ;;
  if Qeq_bool available_cash 0 then
    symbol <- lift (getattr_symbol coin) ;;
    emit (EvInfo (MsgNoFunds ticker symbol)) ;;;
    ret None
  else
    symbol <- lift (getattr_symbol coin) ;;
    borrowable_cash <-
      call (get_max_borrowable env symbol ticker) (EvGetMaxBorrowable symbol ticker) ;;
    total <- lift (total_cash available_cash borrowable_cash) ;;
    ticker_amount <- lift (dec_div total ask_price) ;;
    symbol <- lift (getattr_symbol coin) ;;
    call (manager_buy env ticker_amount ticker symbol) (EvBuy ticker_amount ticker symbol).

(** *** sell (lines 118-120) *)
Definition sell (ticker : pyval) : M (option order) :=
  '(_, available_ticker) <-
     call (get_available_asset env (bridge self) ticker)
          (EvGetAvailableAsset (bridge self) ticker) ;;
  call (manager_sell env available_ticker ticker (bridge self))
       (EvSell available_ticker ticker (bridge self)).

(** *** trade (lines 122-130)

    [None], or the pair [(buy_result, sell_result)]. The call on line 124
    is [self.buy(ticker, coin)]: the parameter [coin] of [buy] receives
    the [ticker] of [trade], and the parameter [ticker] its [coin]. *)
Definition trade (coin ticker : pyval) : M (option (order * option order)) :=
  time_sleep (auto_buy_delay self) ;;;
  buy_result <- buy ticker coin ;;
  match buy_result with
  | None => ret None
  | Some bought =>
      emit (EvInfo (MsgWaitingBeforeSell (auto_sell_delay self))) ;;;
      time_sleep (auto_sell_delay self) ;;;
      sell_result <- sell ticker ;;
      ret (Some (bought, sell_result))
  end.

(** *** tweet_has_crypto (lines 132-146) *)

(** Lines 141-146: the rules, in the order of the dict. *)
Fixpoint match_rules (rules : list (string * string)) (full_text : string)
  : M (option string) :=
  match rules with
  | [] => ret None
  | (re_pattern, ticker) :: rest =>
      let t := unidecode lib full_text in
      match re_search_I lib re_pattern t with
      | None => raise ReError
      | Some true =>
          emit (EvInfo (MsgMatched re_pattern ticker)) ;;;
          ret (Some ticker)
      | Some false => match_rules rest full_text
      end
  end.

(** Line 136: the url of the first attached media item, [''] without one. *)
Definition image_url_of (tweet_json : json) : outcome json :=
  obind (dict_get tweet_json "includes" (JObj [])) (fun includes =>
  obind (dict_get includes "media" (JArr [])) (fun media =>
  obind (first_or_empty_dict media) (fun item =>
  dict_get item "url" (JStr "")))).

(** Lines 133-140: the text in which the rules are searched. *)
Definition full_text_of (tweet_json : string) : M string :=
  match json_loads lib tweet_json with
  | None => raise JSONDecodeError
  | Some tweet_json =>
      emit (EvInfo (MsgTweetReceived tweet_json)) ;;;
      data <- lift (subscript tweet_json "data") ;;
      tweet_text <- lift (subscript data "text") ;;
      image_url <- lift (image_url_of tweet_json) ;;
      image_text <- (if use_image_signal self then get_image_text image_url
                     else ret "") ;;
      ret (format_value lib tweet_text ++ " " ++ image_text)
  end.

Definition tweet_has_crypto (tweet_json : string) (current_coin : pyval)
  : M (option string) :=
  full_text <- full_text_of tweet_json ;;
  match_rules (crypto_rules self) full_text.

(** *** has_crypto_tweet (lines 148-172) *)

(** Lines 166-171. [on_line] is the call on line 168. *)
Fixpoint for_response_lines (on_line : string -> M (option string))
    (lines : list (reply string)) : M (ctl (option string)) :=
  match lines with
  | [] => ret Next
  | line :: rest =>
      response_line <- lift (outcome_of_reply line) ;;
      if nonempty response_line then
        ticker <- on_line response_line ;;
        match ticker with
        | Some t => ret (Return (Some t))
        | None => for_response_lines on_line rest       (* continue *)
        end
      else for_response_lines on_line rest
  end.

(** Lines 153-172: the body of [while True]. The [try] that opens it has
    no [except] or [finally] clause in the source, so nothing is caught. *)
Definition connect_and_consume (on_line : string -> M (option string))
    (timeout : Z) : M (ctl (option string)) :=
  response <- call (requests_get env timeout) EvHttpGet ;;
  emit (EvInfo (MsgSubscribing (status_code response))) ;;;
  (if negb (Z.eqb (status_code response) 200) then
     emit (EvError (MsgCannotGetStream (status_code response) (text response))) ;;;
     emit (EvInfo MsgSleepingAndRetrying) ;;;
     time_sleep 60
   else ret tt) ;;;
  c <- for_response_lines on_line (iter_lines response) ;;
  match c with
  | Return v => ret (Return v)
  | Next => ret (Return None)                          (* line 172 *)
  end.

(** [while True: body]. [None]: the loop is still running when the fuel
    is spent. *)
Fixpoint while_true {A} (fuel : nat) (body : M (ctl A)) : M (option A) :=
  match fuel with
  | O => ret None
  | S n =>
      c <- body ;;
      match c with
      | Return v => ret (Some v)
      | Next => while_true n body
      end
  end.

(** The method, with the two calls of [tweet_has_crypto] as parameters:
    [on_payload] is the call on line 150, [on_line] the one on line 168. *)
Definition stream_consumer (on_payload on_line : string -> M (option string))
    (timeout : Z) (fuel : nat) : M (option (option string)) :=
  match process_tweet_text self with
  | Some payload =>
      v <- on_payload payload ;;
      ret (Some v)
  | None =>
      call (reset_twitter_subscription_rules env (user self))
           (fun _ => EvResetRules (user self)) ;;;
      while_true fuel (connect_and_consume on_line timeout)
  end.

(** Line 150: [self.tweet_has_crypto(self.process_tweet_text, current_coin)].
    [current_coin] is not a parameter of [has_crypto_tweet]. *)
Definition call_line_150 (payload : string) : M (option string) :=
  current_coin <- unbound_name "current_coin" ;;
  tweet_has_crypto payload current_coin.

(** Line 168: [self.tweet_has_crypto(response_line)], one argument for the
    two parameters [tweet_json] and [current_coin]. *)
Definition call_line_168 (response_line : string) : M (option string) :=
  raise (TypeError
    "tweet_has_crypto() missing 1 required positional argument: 'current_coin'").

Definition has_crypto_tweet (timeout : Z) (fuel : nat)
  : M (option (option string)) :=
  stream_consumer call_line_150 call_line_168 timeout fuel.

(** The same method when both calls pass a coin [c] for [current_coin]. *)
Definition has_crypto_tweet_passing (c : pyval) (timeout : Z) (fuel : nat)
  : M (option (option string)) :=
  stream_consumer (fun payload => tweet_has_crypto payload c)
                  (fun line => tweet_has_crypto line c) timeout fuel.
End Methods.

(* ================================================================== *)
(** ** Concrete libraries and collaborators *)

Module Demo.

(** *** Library functions on the inputs used below

    - [json_loads] decodes objects, arrays, strings without escape
      sequences, integers, [true], [false] and [null];
    - [unidecode] is the identity, as it is on ASCII text;
    - [re_search_I] handles the patterns made of letters, digits and
      spaces, which [re] matches literally and, under [re.I], without
      regard to case;
    - [float] and [Decimal] read the plain decimal literals: an optional
      sign, digits, an optional point and digits. [Decimal] gives the
      number the literal spells and [float] the binary64 number nearest
      to it; the other spellings that Python reads (exponents, blanks
      around the number, [inf], [nan]) are not among the order sizes
      used below and are answered as a word would be. *)

Definition is_digit (c : ascii) : bool :=
  let n := nat_of_ascii c in (48 <=? n)%nat && (n <=? 57)%nat.

Definition is_letter (c : ascii) : bool :=
  let n := nat_of_ascii c in
  ((65 <=? n)%nat && (n <=? 90)%nat) || ((97 <=? n)%nat && (n <=? 122)%nat).

Definition is_space (c : ascii) : bool :=
  let n := nat_of_ascii c in
  (n =? 32)%nat || (n =? 9)%nat || (n =? 10)%nat || (n =? 13)%nat.

Definition lower (c : ascii) : ascii :=
  let n := nat_of_ascii c in
  if (65 <=? n)%nat && (n <=? 90)%nat then ascii_of_nat (n + 32) else c.

Fixpoint lower_string (s : string) : string :=
  match s with
  | EmptyString => EmptyString
  | String c rest => String (lower c) (lower_string rest)
  end.

Fixpoint all_chars (p : ascii -> bool) (s : string) : bool :=
  match s with
  | EmptyString => true
  | String c rest => p c && all_chars p rest
  end.

Fixpoint contains (needle hay : string) : bool :=
  String.prefix needle hay ||
  match hay with
  | EmptyString => false
  | String _ rest => contains needle rest
  end.

Definition search_I (re_pattern t : string) : option bool :=
  if all_chars (fun c => is_letter c || is_digit c || (nat_of_ascii c =? 32)%nat) re_pattern
  then Some (contains (lower_string re_pattern) (lower_string t))
  else None.

(** Plain decimal literals: an optional sign, digits, an optional point and
    digits. *)
Definition digit_value (c : ascii) : Z := Z.of_nat (nat_of_ascii c - 48).

Fixpoint digits (s : string) (acc : Z) (count : nat) : Z * nat * string :=
  match s with
  | String c rest =>
      if is_digit c then digits rest (10 * acc + digit_value c)%Z (S count)
      else (acc, count, s)
  | EmptyString => (acc, count, s)
  end.

Definition unsigned_decimal (s : string) : option Q :=
  match digits s 0%Z 0%nat with
  | (int_part, n1, EmptyString) =>
      if (n1 =? 0)%nat then None else Some (inject_Z int_part)
  | (int_part, n1, String "." rest) =>
      match digits rest int_part 0%nat with
      | (all_digits, n2, EmptyString) =>
          if (n1 + n2 =? 0)%nat then None
          else Some (inject_Z all_digits / inject_Z (10 ^ Z.of_nat n2))%Q
      | _ => None
      end
  | _ => None
  end.

Definition parse_decimal (s : string) : option Q :=
  match s with
  | String "-" rest => option_map Qopp (unsigned_decimal rest)
  | String "+" rest => unsigned_decimal rest
  | _ => unsigned_decimal s
  end.

(** JSON *)
Fixpoint skip_ws (s : string) : string :=
  match s with
  | String c rest => if is_space c then skip_ws rest else s
  | EmptyString => s
  end.

(** The characters up to the closing quote. *)
Fixpoint string_body (s : string) : option (string * string) :=
  match s with
  | EmptyString => None
  | String c rest =>
      if (nat_of_ascii c =? 34)%nat then Some (EmptyString, rest)
      else if (nat_of_ascii c =? 92)%nat then None
      else match string_body rest with
           | Some (body, after) => Some (String c body, after)
           | None => None
           end
  end.

Definition literal (word : string) (v : json) (s : string) : option (json * string) :=
  if String.prefix word s
  then Some (v, substring (String.length word) (String.length s - String.length word) s)
  else None.

Definition quote : ascii := ascii_of_nat 34.

Fixpoint parse_value (fuel : nat) (s : string) : option (json * string) :=
  match fuel with
  | O => None
  | S n =>
      match skip_ws s with
      | String "{" rest =>
          match skip_ws rest with
          | String "}" after => Some (JObj [], after)
          | _ => parse_members n rest []
          end
      | String "[" rest =>
          match skip_ws rest with
          | String "]" after => Some (JArr [], after)
          | _ => parse_elements n rest []
          end
      | String "-" rest =>
          match digits rest 0%Z 0%nat with
          | (_, O, _) => None
          | (v, _, after) => Some (JNum (- v), after)
          end
      | String c rest as s' =>
          if (nat_of_ascii c =? 34)%nat then
            match string_body rest with
            | Some (body, after) => Some (JStr body, after)
            | None => None
            end
          else if is_digit c then
            match digits s' 0%Z 0%nat with
            | (v, _, after) => Some (JNum v, after)
            end
          else
            match literal "true" (JBool true) s' with
            | Some r => Some r
            | None =>
                match literal "false" (JBool false) s' with
                | Some r => Some r
                | None => literal "null" JNull s'
                end
            end
      | EmptyString => None
      end
  end
with parse_elements (fuel : nat) (s : string) (acc : list json)
  : option (json * string) :=
  match fuel with
  | O => None
  | S n =>
      match parse_value n s with
      | Some (v, after) =>
          match skip_ws after with
          | String "," rest => parse_elements n rest (acc ++ [v])%list
          | String "]" rest => Some (JArr (acc ++ [v])%list, rest)
          | _ => None
          end
      | None => None
      end
  end
with parse_members (fuel : nat) (s : string) (acc : list (string * json))
  : option (json * string) :=
  match fuel with
  | O => None
  | S n =>
      match skip_ws s with
      | String c rest =>
          if (nat_of_ascii c =? 34)%nat then
            match string_body rest with
            | Some (key, after_key) =>
                match skip_ws after_key with
                | String ":" after_colon =>
                    match parse_value n after_colon with
                    | Some (v, after) =>
                        match skip_ws after with
                        | String "," more => parse_members n more (acc ++ [(key, v)])%list
                        | String "}" more => Some (JObj (acc ++ [(key, v)])%list, more)
                        | _ => None
                        end
                    | None => None
                    end
                | _ => None
                end
            | None => None
            end
          else None
      | EmptyString => None
      end
  end.

Definition loads (s : string) : option json :=
  match parse_value (2 * String.length s + 2) s with
  | Some (v, after) =>
      match skip_ws after with
      | EmptyString => Some v
      | _ => None
      end
  | None => None
  end.

Definition format (v : json) : string :=
  match v with
  | JNull => "None"
  | JBool true => "True"
  | JBool false => "False"
  | _ => ""
  end.

(** [float]: the binary64 number nearest to the literal, half to even
    (53 significant bits; the literals read here are far from the
    exponent bounds of the format). *)
Definition binary64 : Q -> Q := round_significant 2 53.

Definition lib : Library := {|
  json_loads := loads;
  unidecode := fun s => s;
  re_search_I := search_I;
  py_float := fun s => option_map binary64 (parse_decimal s);
  py_Decimal := parse_decimal;
  py_format := format
|}.

(** [json.dumps] on values without numbers, to write payloads down. *)
Definition quoted (s : string) : string :=
  String quote (s ++ String quote EmptyString).

Fixpoint dumps (v : json) : string :=
  match v with
  | JNull => "null"
  | JBool true => "true"
  | JBool false => "false"
  | JNum _ => "0"
  | JStr s => quoted s
  | JArr items =>
      let fix elements (l : list json) : string :=
        match l with
        | [] => ""
        | [x] => dumps x
        | x :: rest => dumps x ++ ", " ++ elements rest
        end in
      "[" ++ elements items ++ "]"
  | JObj fields =>
      let fix members (l : list (string * json)) : string :=
        match l with
        | [] => ""
        | [(k, x)] => quoted k ++ ": " ++ dumps x
        | (k, x) :: rest => quoted k ++ ": " ++ dumps x ++ ", " ++ members rest
        end in
      "{" ++ members fields ++ "}"
  end.

(** *** A scripted world

    Each collaborator answers from a script; the balance query and the
    HTTP request consume one scripted answer per call. *)
Record world : Type := {
  ask_price : reply Q;
  balances : list (reply (Q * Q));
  max_borrowable : reply Q;
  buy_order : reply (option order);
  sell_order : reply (option order);
  responses : list (reply response);
  vision : reply annotate_response
}.

Definition next_balance (w : world) : reply (Q * Q) * world :=
  match balances w with
  | [] => (Fails "no scripted answer", w)
  | r :: rest =>
      (r, {| ask_price := ask_price w; balances := rest;
             max_borrowable := max_borrowable w; buy_order := buy_order w;
             sell_order := sell_order w; responses := responses w;
             vision := vision w |})
  end.

Definition next_response (w : world) : reply response * world :=
  match responses w with
  | [] => (Fails "no scripted answer", w)
  | r :: rest =>
      (r, {| ask_price := ask_price w; balances := balances w;
             max_borrowable := max_borrowable w; buy_order := buy_order w;
             sell_order := sell_order w; responses := rest;
             vision := vision w |})
  end.

Definition env : Collaborators world := {|
  get_ask_price := fun _ _ w => (ask_price w, w);
  get_available_asset := fun _ _ w => next_balance w;
  get_max_borrowable := fun _ _ w => (max_borrowable w, w);
  manager_buy := fun _ _ _ w => (buy_order w, w);
  manager_sell := fun _ _ _ w => (sell_order w, w);
  reset_twitter_subscription_rules := fun _ w => (Ok tt, w);
  requests_get := fun _ w => next_response w;
  import_vision := fun w => (Ok tt, w);
  text_detection := fun _ w => (vision w, w)
|}.

(** A bot that trades against USDT with the rule [{"doge": "DOGE"}]. *)
Definition bot (size : string) (image_signal : bool) (payload : option string)
  : ElonBot := {|
  user := "elonmusk";
  crypto_rules := [("doge", "DOGE")];
  bridge := PCoin "USDT";
  auto_buy_delay := 10;
  auto_sell_delay := 60;
  use_image_signal := image_signal;
  margin_type := "cross_margin";
  order_size := size;
  process_tweet_text := payload
|}.

(** An exchange account: the ask price, the [available] and [borrowable]
    amounts of the bridge asset, the amount of the ticker that is
    [held] after the buy, and the answers to the two order calls. *)
Definition account (ask available borrowable held : Q)
    (bought sold : reply (option order)) : world := {|
  ask_price := Ok ask;
  balances := [Ok (available, 0); Ok (0, held)]%Q;
  max_borrowable := Ok borrowable;
  buy_order := bought;
  sell_order := sold;
  responses := [];
  vision := Fails "unused"
|}.

(** A world in which the stream answers [rs] and text detection [v]. *)
Definition network (rs : list (reply response)) (v : reply annotate_response)
  : world := {|
  ask_price := Fails "unused";
  balances := [];
  max_borrowable := Fails "unused";
  buy_order := Fails "unused";
  sell_order := Fails "unused";
  responses := rs;
  vision := v
|}.

(** Payloads *)
Definition doge_tweet : string :=
  dumps (JObj [("data", JObj [("text", JStr "Doge to the moon")])]).

Definition picture_tweet : string :=
  dumps (JObj [("data", JObj [("text", JStr "Look at this")]);
               ("includes",
                JObj [("media",
                       JArr [JObj [("url", JStr "https://pbs.twimg.com/media/E1.jpg")]])])]).

Definition malformed_line : string := "{bad".

(** Responses of the streaming endpoint. *)
Definition service_unavailable : response := {|
  status_code := 503;
  text := "";
  iter_lines := []
|}.

Definition error_body : string :=
  dumps (JObj [("title", JStr "ConnectionException")]).

Definition too_many_connections : response := {|
  status_code := 429;
  text := error_body;
  iter_lines := [Ok error_body]
|}.

Definition stream (lines : list (reply string)) : response := {|
  status_code := 200;
  text := "";
  iter_lines := lines
|}.

(** Answers of text detection: a network failure, and an error reported
    in the response. *)
Definition ocr_unreachable : reply annotate_response := Fails "ServiceUnavailable".

Definition ocr_bad_image : reply annotate_response :=
  Ok {| error_message := "Bad image data"; text_annotations := [] |}.
End Demo.

(* ================================================================== *)
(** ** The constructor and [info] (lines 20-75)

    The object under construction is its attribute dictionary; the log of
    the constructor is kept with it. *)

(** Modelled from the spec: the configuration object. Its class is not in
    the file; the constructor reads these attributes of it, which the
    configuration surface of the specification lists. *)
Record Config : Type := {
  TWITTER_API_KEY : option string;
  ELON_TWITTER_USERNAME : string;
  ELON_CRYPTO_RULES : list (string * string);
  BRIDGE : pyval;
  ELON_AUTO_BUY_DELAY_SECONDS : Q;
  ELON_AUTO_SELL_DELAY_SECONDS : Q;
  ELON_MARGIN_TYPE : string;
  ELON_ORDER_SIZE_MAX : string;
  GOOGLE_APPLICATION_CREDENTIALS : option string;
  ELON_TWEET_TEXT : option string
}.

(** The values that the attributes of an instance hold. *)
Inductive attr : Type :=
| ALogger                                   (* Logger() *)
| AStr (s : string)
| ARules (rules : list (string * string))
| AVal (v : pyval)
| ANum (q : Q)
| ABool (b : bool)
| AText (t : option string).                (* a str or None *)

Record object : Type := {
  attributes : list (string * attr);        (* self.__dict__ *)
  logged : list (string * list attr)        (* the calls of self.logger.info *)
}.

(** A new instance, as [__init__] receives it. *)
Definition blank : object := {| attributes := []; logged := [] |}.

Fixpoint lookup (name : string) (d : list (string * attr)) : option attr :=
  match d with
  | [] => None
  | (k, v) :: rest => if String.eqb k name then Some v else lookup name rest
  end.

Fixpoint remove_key (name : string) (d : list (string * attr)) : list (string * attr) :=
  match d with
  | [] => []
  | (k, v) :: rest =>
      if String.eqb k name then remove_key name rest else (k, v) :: remove_key name rest
  end.

(** [self.name = v] *)
Definition setattr (name : string) (v : attr) : M object unit :=
  fun o => (Returned tt,
            {| attributes := (name, v) :: remove_key name (attributes o);
               logged := logged o |},
            []).

(** [self.name] *)
Definition getattr (name : string) : M object attr :=
  fun o =>
    match lookup name (attributes o) with
    | Some v => (Returned v, o, [])
    | None => (Raised (AttributeError name), o, [])
    end.

(** [self.logger.info(message, *args)] *)
Definition logger_info (message : string) (args : list attr) : M object unit :=
  fun o => (Returned tt,
            {| attributes := attributes o;
               logged := (logged o ++ [(message, args)])%list |},
            []).

(** [if v:] *)
Definition truthy (v : attr) : bool :=
  match v with
  | ALogger | AVal _ => true
  | AStr s | AText (Some s) => nonempty s
  | AText None => false
  | ARules rules => match rules with [] => false | _ => true end
  | ANum q => negb (Qeq_bool q 0)
  | ABool b => b
  end.

(** The attributes that [info] reports, in the order of its dict. *)
Definition info_attributes : list string :=
  ["user"; "crypto_rules"; "bridge"; "auto_buy_delay"; "auto_sell_delay";
   "use_image_signal"; "margin_type"; "order_size"].

Section Constructor.
Local Open Scope py_scope.

(** Lines 20-63. [false] and [true] are names that nothing binds; the
    parameters [user], [dry_run] and [process_tweet_text] are not read. *)
Definition init (user : string) (config : Config) (dry_run : bool)
    (process_tweet_text : option string) : M object unit :=
  setattr "logger" ALogger ;;;
  match TWITTER_API_KEY config with
  | None =>
      logger_info "No Twitter API key, will not scan for Elons tweets" [] ;;;
      ret tt
  | Some _ =>
      setattr "user" (AStr (ELON_TWITTER_USERNAME config)) ;;;
      setattr "crypto_rules" (ARules (ELON_CRYPTO_RULES config)) ;;;
      setattr "bridge" (AVal (BRIDGE config)) ;;;
      setattr "auto_buy_delay" (ANum (ELON_AUTO_BUY_DELAY_SECONDS config)) ;;;
      setattr "auto_sell_delay" (ANum (ELON_AUTO_SELL_DELAY_SECONDS config)) ;;;
      setattr "margin_type" (AStr (ELON_MARGIN_TYPE config)) ;;;
      setattr "order_size" (AStr (ELON_ORDER_SIZE_MAX config)) ;;;
      match GOOGLE_APPLICATION_CREDENTIALS config with
      | None =>
          logger_info "No google app credentials, will not scan images" [] ;;;
          v <- unbound_name "false" ;;
          setattr "use_image_signal" v
      | Some _ =>
          v <- unbound_name "true" ;;
          setattr "use_image_signal" v
      end ;;;
      setattr "process_tweet_text" (AText (ELON_TWEET_TEXT config)) ;;;
      v <- unbound_name "false" ;;
      setattr "dry_run" v ;;;
      text <- getattr "process_tweet_text" ;;
      match text with
      | AText None => ret tt
      | _ => v <- unbound_name "true" ;; setattr "dry_run" v
      end ;;;
      logger_info "Initialized ElonBot:" [] ;;;
      a <- getattr "user" ;;
      logger_info "  Twitter username:" [a] ;;;
      a <- getattr "crypto_rules" ;;
      logger_info "  Crypto rules:" [a] ;;;
      a <- getattr "bridge" ;;
      logger_info "  Sell back to (BRIDGE):" [a] ;;;
      a <- getattr "auto_buy_delay" ;;
      logger_info "  Auto buy time:" [a] ;;;
      a <- getattr "auto_sell_delay" ;;
      logger_info "  Auto sell time:" [a] ;;;
      a <- getattr "use_image_signal" ;;
      logger_info "  Use image signal:" [a] ;;;
      a <- getattr "margin_type" ;;
      logger_info "  Margin type:" [a] ;;;
      a <- getattr "order_size" ;;
      logger_info "  Order size:" [a] ;;;
      d <- getattr "dry_run" ;;
      (if truthy d then
         logger_info "  Dry run" [] ;;;
         a <- getattr "process_tweet_text" ;;
         logger_info "  Tweet text to process: " [a]
       else ret tt) ;;;
      logger_info
        "If running as a 2nd instance, please please please make sure BRIDGE and Crypto Rules do NOT exist in other instance!"
        [] ;;;
      logger_info "Bot will resume in 10 seconds..." [] ;;;
      @time_sleep object 10
  end.

(** Lines 65-75: the dict is built entry by entry. *)
Definition info : M object (list (string * attr)) :=
  a1 <- getattr "user" ;;
  a2 <- getattr "crypto_rules" ;;
  a3 <- getattr "bridge" ;;
  a4 <- getattr "auto_buy_delay" ;;
  a5 <- getattr "auto_sell_delay" ;;
  a6 <- getattr "use_image_signal" ;;
  a7 <- getattr "margin_type" ;;
  a8 <- getattr "order_size" ;;
  ret [("twitter username", a1); ("crypto rules", a2); ("sell back to", a3);
       ("auto buy delay", a4); ("auto sell delay", a5); ("use image signal", a6);
       ("margin type", a7); ("order size", a8)].
End Constructor.

(** A configuration for the evaluations: the key and the credentials vary. *)
Definition demo_config (key credentials text : option string) : Config := {|
  TWITTER_API_KEY := key;
  ELON_TWITTER_USERNAME := "elonmusk";
  ELON_CRYPTO_RULES := [("doge", "DOGE")];
  BRIDGE := PCoin "USDT";
  ELON_AUTO_BUY_DELAY_SECONDS := 10;
  ELON_AUTO_SELL_DELAY_SECONDS := 60;
  ELON_MARGIN_TYPE := "cross_margin";
  ELON_ORDER_SIZE_MAX := "max";
  GOOGLE_APPLICATION_CREDENTIALS := credentials;
  ELON_TWEET_TEXT := text
|}.

(** A bot like [Demo.bot] whose delay before selling is negative. *)
Definition impatient_bot : ElonBot := {|
  user := "elonmusk";
  crypto_rules := [("doge", "DOGE")];
  bridge := PCoin "USDT";
  auto_buy_delay := 10;
  auto_sell_delay := -1;
  use_image_signal := false;
  margin_type := "cross_margin";
  order_size := "max";
  process_tweet_text := None
|}.

(** A payload whose [data] has no [text]. *)
Definition no_text_tweet : string :=
  Demo.dumps (JObj [("data", JObj [("id", JStr "1")])]).

(** *** More readers of a trace *)

(** The calls of the OCR service. *)
Definition is_vision_call (e : event) : bool :=
  match e with
  | EvImportVision | EvTextDetection _ => true
  | _ => false
  end.

Definition vision_calls (tr : list event) : list event := filter is_vision_call tr.

Definition is_sleep (e : event) : bool :=
  match e with
  | EvSleep _ => true
  | _ => false
  end.

Definition sleeps (tr : list event) : list event := filter is_sleep tr.

(* ================================================================== *)
(** ** Vocabulary of the statements *)

(** [re.search(re_pattern, unidecode(T), flags=re.I) is not None] *)
Definition search (lib : Library) (T re_pattern : string) : option bool :=
  re_search_I lib re_pattern (unidecode lib T).

(** The two legs of what [trade] returns: [None] has neither a buy order
    nor a sell order. *)
Definition legs (result : option (order * option order))
  : option order * option order :=
  match result with
  | None => (None, None)
  | Some (bought, sold) => (Some bought, sold)
  end.


(** A run of [buy] performs no division by zero. *)
Definition no_division_by_zero {W}
    (run : outcome (option order) * W * list event) : Prop :=
  forall e, result_of run = Raised e -> is_division_error e = false.

(* ================================================================== *)
(** ** The runs of the trade executor

    What [buy], [sell] and [trade] return or raise, and after which events,
    for every behaviour of the exchange client. [buy_runs], [sell_runs] and
    [trade_runs] below show that every run of the methods is one of these. *)

Section Runs.
Variable lib : Library.
Variable self : ElonBot.

Inductive buy_run (coin ticker : pyval)
  : outcome (option order) -> list event -> Prop :=
| BuyNoSymbol s :
    coin = PStr s ->
    buy_run coin ticker (Raised (AttributeError "symbol")) []
| BuyAskFails sym what :
    coin = PCoin sym ->
    buy_run coin ticker (Raised (External what))
      [EvGetAskPrice ticker (PStr sym) (Fails what)]
| BuyBalanceFails sym ask what :
    coin = PCoin sym ->
    buy_run coin ticker (Raised (External what))
      [EvGetAskPrice ticker (PStr sym) (Ok ask);
       EvGetAvailableAsset (PStr sym) ticker (Fails what)]
| BuyNoFunds sym ask a t :
    coin = PCoin sym ->
    (a == 0)%Q ->
    buy_run coin ticker (Returned None)
      [EvGetAskPrice ticker (PStr sym) (Ok ask);
       EvGetAvailableAsset (PStr sym) ticker (Ok (a, t));
       EvInfo (MsgNoFunds ticker (PStr sym))]
| BuyBorrowableFails sym ask a t what :
    coin = PCoin sym ->
    ~ (a == 0)%Q ->
    buy_run coin ticker (Raised (External what))
      [EvGetAskPrice ticker (PStr sym) (Ok ask);
       EvGetAvailableAsset (PStr sym) ticker (Ok (a, t));
       EvGetMaxBorrowable (PStr sym) ticker (Fails what)]
| BuySizeFails sym ask a t b e :
    coin = PCoin sym ->
    ~ (a == 0)%Q ->
    total_cash lib self a b = Raised e ->
    buy_run coin ticker (Raised e)
      [EvGetAskPrice ticker (PStr sym) (Ok ask);
       EvGetAvailableAsset (PStr sym) ticker (Ok (a, t));
       EvGetMaxBorrowable (PStr sym) ticker (Ok b)]
| BuyQuantityFails sym ask a t b total e :
    coin = PCoin sym ->
    ~ (a == 0)%Q ->
    total_cash lib self a b = Returned total ->
    dec_div total ask = Raised e ->
    buy_run coin ticker (Raised e)
      [EvGetAskPrice ticker (PStr sym) (Ok ask);
       EvGetAvailableAsset (PStr sym) ticker (Ok (a, t));
       EvGetMaxBorrowable (PStr sym) ticker (Ok b)]
| BuyOrder sym ask a t b total quantity r :
    coin = PCoin sym ->
    ~ (a == 0)%Q ->
    total_cash lib self a b = Returned total ->
    dec_div total ask = Returned quantity ->
    buy_run coin ticker (outcome_of_reply r)
      [EvGetAskPrice ticker (PStr sym) (Ok ask);
       EvGetAvailableAsset (PStr sym) ticker (Ok (a, t));
       EvGetMaxBorrowable (PStr sym) ticker (Ok b);
       EvBuy quantity ticker (PStr sym) r].

Inductive sell_run (ticker : pyval)
  : outcome (option order) -> list event -> Prop :=
| SellBalanceFails what :
    sell_run ticker (Raised (External what))
      [EvGetAvailableAsset (bridge self) ticker (Fails what)]
| SellOrder a available_ticker r :
    sell_run ticker (outcome_of_reply r)
      [EvGetAvailableAsset (bridge self) ticker (Ok (a, available_ticker));
       EvSell available_ticker ticker (bridge self) r].

(** [trade coin ticker] runs [buy ticker coin]. *)
Inductive trade_run (coin ticker : pyval)
  : outcome (option (order * option order)) -> list event -> Prop :=
| TradeBuyDelayRejected :
    (auto_buy_delay self < 0)%Q ->
    trade_run coin ticker (Raised (ValueError NegativeSleepLength)) []
| TradeBuyRaises e tr :
    buy_run ticker coin (Raised e) tr ->
    trade_run coin ticker (Raised e) (EvSleep (auto_buy_delay self) :: tr)
| TradeNothingBought tr :
    buy_run ticker coin (Returned None) tr ->
    trade_run coin ticker (Returned None) (EvSleep (auto_buy_delay self) :: tr)
| TradeSellDelayRejected bought tr :
    buy_run ticker coin (Returned (Some bought)) tr ->
    (auto_sell_delay self < 0)%Q ->
    trade_run coin ticker (Raised (ValueError NegativeSleepLength))
      (EvSleep (auto_buy_delay self)
         :: tr ++ [EvInfo (MsgWaitingBeforeSell (auto_sell_delay self))])%list
| TradeSellRaises bought tr e tr' :
    buy_run ticker coin (Returned (Some bought)) tr ->
    sell_run ticker (Raised e) tr' ->
    trade_run coin ticker (Raised e)
      (EvSleep (auto_buy_delay self)
         :: tr ++ EvInfo (MsgWaitingBeforeSell (auto_sell_delay self))
               :: EvSleep (auto_sell_delay self) :: tr')%list
| TradeBoughtAndSold bought tr sold tr' :
    buy_run ticker coin (Returned (Some bought)) tr ->
    sell_run ticker (Returned sold) tr' ->
    trade_run coin ticker (Returned (Some (bought, sold)))
      (EvSleep (auto_buy_delay self)
         :: tr ++ EvInfo (MsgWaitingBeforeSell (auto_sell_delay self))
               :: EvSleep (auto_sell_delay self) :: tr')%list.
End Runs.

(* ================================================================== *)
(** ** Proof tools *)

Ltac unfold_run :=
  unfold result_of, trace_of, world_of, bind, call, lift, emit, ret, raise,
    try_except, unbound_name, obind in *.

(** Membership in an explicit trace, case by case. *)
Ltac in_cases H :=
  simpl in H; repeat (destruct H as [H|H]); try discriminate H; try contradiction.

Lemma Qeq_bool_true (x y : Q) : Qeq_bool x y = true -> (x == y)%Q.
Proof. apply Qeq_bool_iff. Qed.

Lemma Qeq_bool_false (x y : Q) : Qeq_bool x y = false -> ~ (x == y)%Q.
Proof. intros H E. apply Qeq_bool_iff in E. congruence. Qed.

Lemma Qgt_bool_true (x y : Q) : Qgt_bool x y = true <-> (y < x)%Q.
Proof.
  unfold Qgt_bool. rewrite negb_true_iff. split.
  - intros H. apply Qnot_le_lt. intros L. apply Qle_bool_iff in L. congruence.
  - intros H. destruct (Qle_bool x y) eqn:E; [|reflexivity].
    apply Qle_bool_iff in E. exfalso. apply (Qlt_not_le _ _ H E).
Qed.

Lemma Qgt_bool_false (x y : Q) : Qgt_bool x y = false <-> (x <= y)%Q.
Proof.
  unfold Qgt_bool. rewrite negb_false_iff. apply Qle_bool_iff.
Qed.

(* ================================================================== *)
(** ** RuleMatcher: [tweet_has_crypto], lines 141-146 *)

Section RuleMatcher.
Variable W : Type.
Variable lib : Library.

Lemma match_rules_hit re_pattern ticker rest T (w : W) :
  search lib T re_pattern = Some true ->
  result_of (match_rules lib ((re_pattern, ticker) :: rest) T w)
  = Returned (Some ticker).
Proof. unfold search. intros H. simpl. rewrite H. reflexivity. Qed.

Lemma match_rules_miss re_pattern ticker rest T (w : W) :
  search lib T re_pattern = Some false ->
  match_rules lib ((re_pattern, ticker) :: rest) T w = match_rules lib rest T w.
Proof. unfold search. intros H. simpl. rewrite H. reflexivity. Qed.

Lemma match_rules_error re_pattern ticker rest T (w : W) :
  search lib T re_pattern = None ->
  result_of (match_rules lib ((re_pattern, ticker) :: rest) T w) = Raised ReError.
Proof. unfold search. intros H. simpl. rewrite H. reflexivity. Qed.

(** C1. For every rule set and every text, [match_rules] (the loop of
    [tweet_has_crypto]) returns a ticker exactly when it is the ticker of
    the first rule, in the order of the rule set, whose pattern
    [re.search] finds, ignoring case, in the unidecoded text; and it
    returns [None] exactly when the search finds the pattern of no rule. *)
Theorem match_rules_first_match (rules : list (string * string)) (T : string) (w : W) :
  (forall ticker,
      result_of (match_rules lib rules T w) = Returned (Some ticker) <->
      exists before re_pattern after,
        rules = (before ++ (re_pattern, ticker) :: after)%list /\
        search lib T re_pattern = Some true /\
        Forall (fun rule => search lib T (fst rule) = Some false) before)
  /\ (result_of (match_rules lib rules T w) = Returned None <->
      Forall (fun rule => search lib T (fst rule) = Some false) rules).
Proof.
  induction rules as [|[p tk] rest [IHsome IHnone]].
  - split.
    + intros ticker. split.
      * discriminate.
      * intros (before & q & after & E & _). destruct before; discriminate.
    + split; [constructor | reflexivity].
  - destruct (search lib T p) as [[|]|] eqn:S.
    + (* the head matches *)
      split.
      * intros ticker. rewrite match_rules_hit by exact S. split.
        -- intros E. injection E as <-. exists [], p, rest. repeat split; auto.
        -- intros (before & q & after & E & Hq & Hb).
           destruct before as [|[p' tk'] before].
           ++ simpl in E. injection E as _ <-. reflexivity.
           ++ simpl in E. injection E as <- <- _.
              inversion Hb as [|? ? Hp _]. simpl in Hp. congruence.
      * rewrite match_rules_hit by exact S. split; [discriminate|].
        intros F. inversion F as [|? ? Hp _]. simpl in Hp. congruence.
    + (* the head does not match *)
      rewrite match_rules_miss by exact S. split.
      * intros ticker. rewrite IHsome. split.
        -- intros (before & q & after & -> & Hq & Hb).
           exists ((p, tk) :: before), q, after. repeat split; auto.
        -- intros (before & q & after & E & Hq & Hb).
           destruct before as [|[p' tk'] before].
           ++ simpl in E. injection E as <- _ _. congruence.
           ++ simpl in E. injection E as _ _ ->. inversion Hb; subst.
              exists before, q, after. repeat split; auto.
      * rewrite IHnone. split.
        -- intros F. constructor; auto.
        -- intros F. inversion F; auto.
    + (* the pattern of the head does not compile *)
      split.
      * intros ticker. rewrite match_rules_error by exact S. split; [discriminate|].
        intros (before & q & after & E & Hq & Hb).
        destruct before as [|[p' tk'] before].
        -- simpl in E. injection E as <- _ _. congruence.
        -- simpl in E. injection E as <- _ _.
           inversion Hb as [|? ? Hp _]. simpl in Hp. congruence.
      * rewrite match_rules_error by exact S. split; [discriminate|].
        intros F. inversion F as [|? ? Hp _]. simpl in Hp. congruence.
Qed.
End RuleMatcher.

(* ================================================================== *)
(** ** [Decimal] and [float] rounding on examples

    The values are those that Python computes: [Decimal(1) / Decimal(3)],
    [Decimal(2) / Decimal(3)], a sum of 29 digits whose last digit is 5
    (a tie, which goes to the even neighbour), [float('1.1')],
    [float('0.1')] and [float('2.0000000000000000001')]. *)

Example round28_one_third :
  dec_div 1 3 = Returned (3333333333333333333333333333 # 10000000000000000000000000000)%Q.
Proof. vm_compute. reflexivity. Qed.

Example round28_two_thirds :
  dec_div 2 3 = Returned (6666666666666666666666666667 # 10000000000000000000000000000)%Q.
Proof. vm_compute. reflexivity. Qed.

Example round28_ties_to_even :
  dec_add 12345678901234567890123456785 0 = 12345678901234567890123456780%Q /\
  dec_add 12345678901234567890123456775 0 = 12345678901234567890123456780%Q /\
  dec_add 12345678901234567890123456776 0 = 12345678901234567890123456780%Q /\
  dec_add 12345678901234567890123456774 0 = 12345678901234567890123456770%Q.
Proof. repeat split; vm_compute; reflexivity. Qed.

Example round28_keeps_28_digits :
  dec_mul (1234567890123456789012345679 # 1000) (1 # 1000)
  = (1234567890123456789012345679 # 1000000)%Q /\
  dec_mul 100 (20000000000000000001 # 10000000000000000000)
  = (20000000000000000001 # 100000000000000000)%Q.
Proof. split; vm_compute; reflexivity. Qed.

Example binary64_of_literals :
  Demo.binary64 (11 # 10) = (2476979795053773 # 2251799813685248)%Q /\
  Demo.binary64 (1 # 10) = (3602879701896397 # 36028797018963968)%Q /\
  Demo.binary64 (20000000000000000001 # 10000000000000000000) = 2%Q /\
  Demo.binary64 (5 # 10) = (1 # 2)%Q /\
  Demo.binary64 9007199254740993 = 9007199254740992%Q.
Proof. repeat split; vm_compute; reflexivity. Qed.

(* ================================================================== *)
(** ** TradeExecutor: [buy], [sell], [trade] *)

Section TradeExecutor.
Variable W : Type.
Variable lib : Library.
Variable env : Collaborators W.
Variable self : ElonBot.

(** Lines 108-114 when the order size is a fraction and the available
    balance is not zero: [max_cash] is the rounded quotient of line 111,
    [f] what [float] makes of the order size and [d] what [Decimal] makes
    of it. *)
Lemma total_cash_fraction (a b f d : Q) :
  order_size self <> "max" ->
  py_float lib (order_size self) = Some f ->
  py_Decimal lib (order_size self) = Some d ->
  ~ (a == 0)%Q ->
  total_cash lib self a b =
    if Qgt_bool f (round28 (dec_add a b / a))
    then Raised (ValueError (OrderSizeExceedsMaxMargin (order_size self)
                               (round28 (dec_add a b / a))))
    else Returned (dec_mul a d).
Proof.
  intros Hmax Hf Hd Ha. unfold total_cash, dec_div, obind.
  apply String.eqb_neq in Hmax. rewrite Hmax.
  destruct (Qeq_bool a 0) eqn:E.
  - apply Qeq_bool_true in E. contradiction.
  - rewrite Hf, Hd. reflexivity.
Qed.

(** Lines 108-109 when the order size is ["max"]. *)
Lemma total_cash_max (a b : Q) :
  order_size self = "max" ->
  total_cash lib self a b = Returned (dec_add a b).
Proof. intros Hmax. unfold total_cash. rewrite Hmax. reflexivity. Qed.

(** The division on line 111 has a divisor that is not zero. *)
Lemma total_cash_no_division_error (a b : Q) (e : exn) :
  ~ (a == 0)%Q ->
  total_cash lib self a b = Raised e ->
  is_division_error e = false.
Proof.
  intros Ha. unfold total_cash, dec_div, obind.
  destruct (String.eqb (order_size self) "max"); [discriminate|].
  destruct (Qeq_bool a 0) eqn:E.
  - apply Qeq_bool_true in E. contradiction.
  - destruct (py_float lib (order_size self)) as [f|].
    + destruct (Qgt_bool f (round28 (dec_add a b / a))).
      * intros H. injection H as <-. reflexivity.
      * destruct (py_Decimal lib (order_size self)); [discriminate|].
        intros H. injection H as <-. reflexivity.
    + intros H. injection H as <-. reflexivity.
Qed.

Lemma dec_div_raises (x y : Q) (e : exn) :
  dec_div x y = Raised e -> (y == 0)%Q /\ is_division_error e = true.
Proof.
  unfold dec_div. destruct (Qeq_bool y 0) eqn:E; [|discriminate].
  apply Qeq_bool_true in E. intros H. injection H as <-.
  split; [exact E|]. destruct (Qeq_bool x 0); reflexivity.
Qed.

Lemma dec_div_returns (x y q : Q) :
  dec_div x y = Returned q -> ~ (y == 0)%Q /\ q = round28 (x / y).
Proof.
  unfold dec_div. destruct (Qeq_bool y 0) eqn:E; [discriminate|].
  apply Qeq_bool_false in E. intros H. injection H as <-. auto.
Qed.

Lemma outcome_of_reply_raised {A} (r : reply A) (e : exn) :
  outcome_of_reply r = Raised e -> exists what, r = Fails what /\ e = External what.
Proof. destruct r; simpl; [discriminate|]. intros H. injection H as <-. eauto. Qed.

Lemma outcome_of_reply_returned {A} (r : reply A) (a : A) :
  outcome_of_reply r = Returned a -> r = Ok a.
Proof. destruct r; simpl; [|discriminate]. intros H. injection H as <-. reflexivity. Qed.

Lemma time_sleep_run (d : Q) (w : W) :
  (0 <= d)%Q /\ time_sleep d w = (Returned tt, w, [EvSleep d]) \/
  (d < 0)%Q /\ time_sleep d w = (Raised (ValueError NegativeSleepLength), w, []).
Proof.
  unfold time_sleep. destruct (Qle_bool 0 d) eqn:E.
  - left. split; [apply Qle_bool_iff; exact E | reflexivity].
  - right. split; [|reflexivity].
    apply Qnot_le_lt. intros L. apply Qle_bool_iff in L. congruence.
Qed.

Lemma buy_runs coin ticker (w : W) :
  buy_run lib self coin ticker (result_of (buy lib env self coin ticker w))
                               (trace_of (buy lib env self coin ticker w)).
Proof.
  unfold buy. unfold_run. destruct coin as [s|sym]; simpl.
  - econstructor; reflexivity.
  - destruct (get_ask_price env ticker (PStr sym) w) as [[ask|what] w1]; simpl;
      [|econstructor; reflexivity].
    destruct (get_available_asset env (PStr sym) ticker w1) as [[[a t]|what] w2]; simpl;
      [|econstructor; reflexivity].
    destruct (Qeq_bool a 0) eqn:Ea; simpl.
    + apply Qeq_bool_true in Ea. econstructor; eauto.
    + apply Qeq_bool_false in Ea.
      destruct (get_max_borrowable env (PStr sym) ticker w2) as [[b|what] w3]; simpl;
        [|econstructor; eauto].
      destruct (total_cash lib self a b) as [total|e] eqn:Et; simpl;
        [|eapply BuySizeFails; eauto].
      destruct (dec_div total ask) as [quantity|e] eqn:Eq; simpl;
        [|eapply BuyQuantityFails; eauto].
      destruct (manager_buy env quantity ticker (PStr sym) w3) as [r w4]; simpl.
      eapply BuyOrder; eauto.
Qed.

Lemma sell_runs ticker (w : W) :
  sell_run self ticker (result_of (sell env self ticker w))
                       (trace_of (sell env self ticker w)).
Proof.
  unfold sell. unfold_run.
  destruct (get_available_asset env (bridge self) ticker w) as [[[a t]|what] w1]; simpl.
  - destruct (manager_sell env t ticker (bridge self) w1) as [r w2]; simpl.
    econstructor.
  - econstructor.
Qed.

Lemma trade_runs coin ticker (w : W) :
  trade_run lib self coin ticker (result_of (trade lib env self coin ticker w))
                                 (trace_of (trade lib env self coin ticker w)).
Proof.
  unfold trade, result_of, trace_of, bind, emit, ret.
  destruct (time_sleep_run (auto_buy_delay self) w) as [[_ ->]|[Hd ->]]; simpl;
    [|constructor; exact Hd].
  pose proof (buy_runs ticker coin w) as B. unfold result_of, trace_of in B.
  destruct (buy lib env self ticker coin w) as [[[[bought|]|e] w1] tr]; simpl in *.
  - destruct (time_sleep_run (auto_sell_delay self) w1) as [[_ ->]|[Hd ->]]; simpl.
    + pose proof (sell_runs ticker w1) as S. unfold result_of, trace_of in S.
      destruct (sell env self ticker w1) as [[[sold|e] w2] tr']; simpl in *.
      * rewrite app_nil_r. eapply TradeBoughtAndSold; eauto.
      * eapply TradeSellRaises; eauto.
    + eapply TradeSellDelayRejected; eauto.
  - rewrite app_nil_r. eapply TradeNothingBought; eauto.
  - eapply TradeBuyRaises; eauto.
Qed.

(** X22. Called as its annotations say, with a [Coin] and a ticker name,
    [trade] stops in [buy] on [coin.symbol]: there [coin] is the name. *)
Lemma trade_as_annotated (symbol name : string) (w : W) :
  (0 <= auto_buy_delay self)%Q ->
  trade lib env self (PCoin symbol) (PStr name) w
  = (Raised (AttributeError "symbol"), w, [EvSleep (auto_buy_delay self)]).
Proof.
  intros Hd. unfold trade, bind.
  destruct (time_sleep_run (auto_buy_delay self) w) as [[_ ->]|[Hn _]].
  - reflexivity.
  - exfalso. apply (Qlt_not_le _ _ Hn Hd).
Qed.

(** A run of [buy] that returns an order. *)
Lemma buy_run_bought coin ticker bought tr :
  buy_run lib self coin ticker (Returned (Some bought)) tr ->
  exists sym ask a t b total,
    ~ (a == 0)%Q /\ ~ (ask == 0)%Q /\
    total_cash lib self a b = Returned total /\
    tr = [EvGetAskPrice ticker (PStr sym) (Ok ask);
          EvGetAvailableAsset (PStr sym) ticker (Ok (a, t));
          EvGetMaxBorrowable (PStr sym) ticker (Ok b);
          EvBuy (round28 (total / ask)) ticker (PStr sym) (Ok (Some bought))].
Proof.
  intros B. inversion B as [| | | | | | |sym ask a t b total quantity r _ Ha Ht Hq Hr Htr].
  apply outcome_of_reply_returned in Hr. subst r.
  apply dec_div_returns in Hq. destruct Hq as [Hask ->].
  exists sym, ask, a, t, b, total. auto.
Qed.

(** C3. In every trade cycle whose balance query answers that the
    available amount is zero, [trade] returns a result ([None]) of which
    both the buy leg and the sell leg are null, and the run contains no
    call of the exchange client's [buy] or [sell]. *)
Theorem trade_zero_balance coin ticker (w : W) (a t : Q) :
  queried_available (trace_of (trade lib env self coin ticker w)) = Some (Ok (a, t)) ->
  (a == 0)%Q ->
  exists result,
    result_of (trade lib env self coin ticker w) = Returned result /\
    legs result = (None, None) /\
    order_calls (trace_of (trade lib env self coin ticker w)) = [].
Proof.
  intros Hq Ha. exists None.
  cut (result_of (trade lib env self coin ticker w) = Returned None /\
       order_calls (trace_of (trade lib env self coin ticker w)) = []);
    [intros [H1 H2]; auto|].
  pose proof (trade_runs coin ticker w) as R.
  destruct (trade lib env self coin ticker w) as [[r w'] tr].
  unfold result_of, trace_of in *. simpl in *.
  inversion R as [ | e tr0 B | tr0 B | bought tr0 B | bought tr0 e tr1 B | bought tr0 sold tr1 B ];
    subst; simpl in Hq.
  - discriminate.
  - inversion B; subst; simpl in Hq; try discriminate;
      injection Hq as -> ->; contradiction.
  - inversion B as [| | |sym ask a0 t0 _ Ha0| | | |]; subst; simpl in Hq.
    + injection Hq as -> ->. split; reflexivity.
    + match goal with H : outcome_of_reply _ = Returned None |- _ =>
        apply outcome_of_reply_returned in H; subst end.
      simpl in Hq. injection Hq as -> ->. contradiction.
  - apply buy_run_bought in B.
    destruct B as (sym & ask & a0 & t0 & b & total & Ha0 & _ & _ & ->).
    simpl in Hq. injection Hq as -> ->. contradiction.
  - apply buy_run_bought in B.
    destruct B as (sym & ask & a0 & t0 & b & total & Ha0 & _ & _ & ->).
    simpl in Hq. injection Hq as -> ->. contradiction.
  - apply buy_run_bought in B.
    destruct B as (sym & ask & a0 & t0 & b & total & Ha0 & _ & _ & ->).
    simpl in Hq. injection Hq as -> ->. contradiction.
Qed.

Lemma buy_run_no_sell coin ticker r tr q t p x :
  buy_run lib self coin ticker r tr -> ~ In (EvSell q t p x) tr.
Proof. intros B H. inversion B; subst; in_cases H. Qed.


(** C9, as the code has it. A run of [buy] that stops on a division by
    zero has passed the zero-balance check with an available balance
    that is not zero and has computed the amount to spend, so that the
    division on line 111 divided by a non-zero balance; the division
    that failed is the last one, by an ask price of zero. *)
Theorem buy_divides_by_zero_only_by_ask_price coin ticker (w : W) (e : exn) :
  result_of (buy lib env self coin ticker w) = Raised e ->
  is_division_error e = true ->
  exists tk sym ask a t b total,
    In (EvGetAskPrice tk sym (Ok ask)) (trace_of (buy lib env self coin ticker w)) /\
    (ask == 0)%Q /\
    In (EvGetAvailableAsset sym tk (Ok (a, t))) (trace_of (buy lib env self coin ticker w)) /\
    ~ (a == 0)%Q /\
    In (EvGetMaxBorrowable sym tk (Ok b)) (trace_of (buy lib env self coin ticker w)) /\
    total_cash lib self a b = Returned total.
Proof.
  intros Hr He.
  pose proof (buy_runs coin ticker w) as B.
  destruct (buy lib env self coin ticker w) as [[r w'] tr].
  unfold result_of, trace_of in *. simpl in *. subst r.
  inversion B as [ s | sym what | sym ask what | | sym ask a t what
                   | sym ask a t b e' _ Ha Ht | sym ask a t b total e' _ Ha Ht Hq
                   | sym ask a t b total quantity r _ Ha Ht Hq Hr ]; subst;
    try discriminate He.
  - apply (total_cash_no_division_error _ Ha) in Ht. congruence.
  - apply dec_div_raises in Hq. destruct Hq as [Hask _].
    exists ticker, (PStr sym), ask, a, t, b, total. simpl. tauto.
  - apply outcome_of_reply_raised in Hr. destruct Hr as (what & -> & ->).
    discriminate He.
Qed.
End TradeExecutor.

(* ================================================================== *)
(** ** The trade executor on a concrete account

    The exchange quotes DOGE at 2 USDT; the account holds 100 USDT and can
    borrow 100 more. [trade] hands its [ticker] to [buy] as the coin, so
    the runs below give the [Coin] object as [ticker]. *)

(** C2 is not what the code does at the largest fraction. The check on
    line 112 compares what [float] makes of the order size; the amount on
    line 114 is computed from what [Decimal] makes of it.
    - With 10 USDT available and 1 to borrow the largest fraction is
      [(10 + 1) / 10 = 1.1]. The order size ["1.1"] is that fraction, not
      a larger one: [float] reads it as a number above 1.1, and [buy]
      raises the order size error.
    - With 100 USDT available and 100 to borrow the largest fraction is 2.
      The order size ["2.0000000000000000001"] is larger: [float] reads it
      as 2, the check lets it pass, and [buy] places the order for
      [200.00000000000000001 / 2]. *)
Theorem order_size_check_compares_a_float :
  (py_Decimal Demo.lib "1.1" = Some (11 # 10)%Q /\
   ((10 + 1) / 10 == 11 # 10)%Q /\
   py_float Demo.lib "1.1" = Some (2476979795053773 # 2251799813685248)%Q /\
   (11 # 10 < 2476979795053773 # 2251799813685248)%Q /\
   buy Demo.lib Demo.env (Demo.bot "1.1" false None) (PCoin "USDT") (PStr "DOGE")
     (Demo.account 2 10 1 25 (Ok (Some "bought")) (Ok (Some "sold")))
   = (Raised (ValueError (OrderSizeExceedsMaxMargin "1.1" (11 # 10))),
      snd (Demo.next_balance
             (Demo.account 2 10 1 25 (Ok (Some "bought")) (Ok (Some "sold")))),
      [EvGetAskPrice (PStr "DOGE") (PStr "USDT") (Ok 2%Q);
       EvGetAvailableAsset (PStr "USDT") (PStr "DOGE") (Ok (10, 0)%Q);
       EvGetMaxBorrowable (PStr "USDT") (PStr "DOGE") (Ok 1%Q)]))
  /\
  (py_Decimal Demo.lib "2.0000000000000000001"
   = Some (20000000000000000001 # 10000000000000000000)%Q /\
   ((100 + 100) / 100 < 20000000000000000001 # 10000000000000000000)%Q /\
   py_float Demo.lib "2.0000000000000000001" = Some 2%Q /\
   buy Demo.lib Demo.env (Demo.bot "2.0000000000000000001" false None)
     (PCoin "USDT") (PStr "DOGE")
     (Demo.account 2 100 100 25 (Ok (Some "bought")) (Ok (Some "sold")))
   = (Returned (Some "bought"),
      snd (Demo.next_balance
             (Demo.account 2 100 100 25 (Ok (Some "bought")) (Ok (Some "sold")))),
      [EvGetAskPrice (PStr "DOGE") (PStr "USDT") (Ok 2%Q);
       EvGetAvailableAsset (PStr "USDT") (PStr "DOGE") (Ok (100, 0)%Q);
       EvGetMaxBorrowable (PStr "USDT") (PStr "DOGE") (Ok 100%Q);
       EvBuy (20000000000000000001 # 200000000000000000) (PStr "DOGE") (PStr "USDT")
         (Ok (Some "bought"))])).
Proof. repeat split; vm_compute; reflexivity. Qed.

(** The two order sizes of the specification, ["0.5"] and ["2.5"], with
    100 USDT available and 100 to borrow: ["0.5"] spends 50 and orders
    [50 / 2]; ["2.5"] is above the largest fraction 2 and is rejected
    before any order call. Both are binary64 numbers, which [float] and
    [Decimal] read alike. *)
Example order_sizes_of_the_specification :
  total_cash Demo.lib (Demo.bot "0.5" false None) 100 100 = Returned 50%Q /\
  trace_of (buy Demo.lib Demo.env (Demo.bot "0.5" false None) (PCoin "USDT") (PStr "DOGE")
              (Demo.account 2 100 100 25 (Ok (Some "bought")) (Ok (Some "sold"))))
  = [EvGetAskPrice (PStr "DOGE") (PStr "USDT") (Ok 2%Q);
     EvGetAvailableAsset (PStr "USDT") (PStr "DOGE") (Ok (100, 0)%Q);
     EvGetMaxBorrowable (PStr "USDT") (PStr "DOGE") (Ok 100%Q);
     EvBuy 25 (PStr "DOGE") (PStr "USDT") (Ok (Some "bought"))] /\
  total_cash Demo.lib (Demo.bot "2.5" false None) 100 100
  = Raised (ValueError (OrderSizeExceedsMaxMargin "2.5" 2)) /\
  trace_of (buy Demo.lib Demo.env (Demo.bot "2.5" false None) (PCoin "USDT") (PStr "DOGE")
              (Demo.account 2 100 100 25 (Ok (Some "bought")) (Ok (Some "sold"))))
  = [EvGetAskPrice (PStr "DOGE") (PStr "USDT") (Ok 2%Q);
     EvGetAvailableAsset (PStr "USDT") (PStr "DOGE") (Ok (100, 0)%Q);
     EvGetMaxBorrowable (PStr "USDT") (PStr "DOGE") (Ok 100%Q)].
Proof. repeat split; vm_compute; reflexivity. Qed.

(** C10 is not what the code does. With 100 USDT available and 100 to
    borrow, the order size ["2.0000000000000000001"] passes the check on
    line 112, which reads it with [float] as 2. The amount to spend is
    computed from what [Decimal] reads, [200.00000000000000001]: more
    than the 200 USDT that can be had, and [100.00000000000000001] of it
    would be borrowed where 100 can be. The order is placed for that
    amount. *)
Theorem accepted_order_size_exceeds_funds :
  exists total quantity,
    total_cash Demo.lib (Demo.bot "2.0000000000000000001" false None) 100 100
    = Returned total /\
    (total == 20000000000000000001 # 100000000000000000)%Q /\
    (100 + 100 < total)%Q /\
    (100 < total - 100)%Q /\
    dec_div total 2 = Returned quantity /\
    order_calls
      (trace_of (buy Demo.lib Demo.env (Demo.bot "2.0000000000000000001" false None)
                   (PCoin "USDT") (PStr "DOGE")
                   (Demo.account 2 100 100 25 (Ok (Some "bought")) (Ok (Some "sold")))))
    = [EvBuy quantity (PStr "DOGE") (PStr "USDT") (Ok (Some "bought"))] /\
    result_of (buy Demo.lib Demo.env (Demo.bot "2.0000000000000000001" false None)
                 (PCoin "USDT") (PStr "DOGE")
                 (Demo.account 2 100 100 25 (Ok (Some "bought")) (Ok (Some "sold"))))
    = Returned (Some "bought").
Proof.
  exists (20000000000000000001 # 100000000000000000)%Q,
         (20000000000000000001 # 200000000000000000)%Q.
  repeat split; vm_compute; reflexivity.
Qed.

(** C3 on the account when it holds no USDT. *)
Lemma trade_zero_balance_witness :
  queried_available
    (trace_of (trade Demo.lib Demo.env (Demo.bot "0.5" false None)
                 (PStr "DOGE") (PCoin "USDT")
                 (Demo.account 2 0 100 0 (Ok (Some "bought")) (Ok (Some "sold")))))
  = Some (Ok (0, 0)%Q) /\
  (0 == 0)%Q /\
  exists result,
    result_of (trade Demo.lib Demo.env (Demo.bot "0.5" false None)
                 (PStr "DOGE") (PCoin "USDT")
                 (Demo.account 2 0 100 0 (Ok (Some "bought")) (Ok (Some "sold"))))
    = Returned result /\
    legs result = (None, None) /\
    order_calls
      (trace_of (trade Demo.lib Demo.env (Demo.bot "0.5" false None)
                   (PStr "DOGE") (PCoin "USDT")
                   (Demo.account 2 0 100 0 (Ok (Some "bought")) (Ok (Some "sold")))))
    = [].
Proof.
  split; [reflexivity|]. split; [reflexivity|].
  apply (@trade_zero_balance _ Demo.lib Demo.env (Demo.bot "0.5" false None)
           (PStr "DOGE") (PCoin "USDT")
           (Demo.account 2 0 100 0 (Ok (Some "bought")) (Ok (Some "sold"))) 0%Q 0%Q).
  - reflexivity.
  - reflexivity.
Defined.



(** C9 fails on the account when the exchange quotes an ask price of zero:
    [buy] divides the amount to spend by it. *)
Lemma buy_divides_by_zero_ask_price :
  ~ no_division_by_zero
      (buy Demo.lib Demo.env (Demo.bot "0.5" false None)
         (PCoin "USDT") (PStr "DOGE")
         (Demo.account 0 100 100 0 (Ok (Some "bought")) (Ok (Some "sold")))).
Proof.
  intros H. specialize (H DivisionByZero eq_refl). discriminate H.
Qed.

Lemma buy_divides_by_zero_only_by_ask_price_witness :
  result_of (buy Demo.lib Demo.env (Demo.bot "0.5" false None)
               (PCoin "USDT") (PStr "DOGE")
               (Demo.account 0 100 100 0 (Ok (Some "bought")) (Ok (Some "sold"))))
  = Raised DivisionByZero /\
  is_division_error DivisionByZero = true /\
  exists tk sym ask a t b total,
    In (EvGetAskPrice tk sym (Ok ask))
       (trace_of (buy Demo.lib Demo.env (Demo.bot "0.5" false None)
                    (PCoin "USDT") (PStr "DOGE")
                    (Demo.account 0 100 100 0 (Ok (Some "bought")) (Ok (Some "sold"))))) /\
    (ask == 0)%Q /\
    In (EvGetAvailableAsset sym tk (Ok (a, t)))
       (trace_of (buy Demo.lib Demo.env (Demo.bot "0.5" false None)
                    (PCoin "USDT") (PStr "DOGE")
                    (Demo.account 0 100 100 0 (Ok (Some "bought")) (Ok (Some "sold"))))) /\
    ~ (a == 0)%Q /\
    In (EvGetMaxBorrowable sym tk (Ok b))
       (trace_of (buy Demo.lib Demo.env (Demo.bot "0.5" false None)
                    (PCoin "USDT") (PStr "DOGE")
                    (Demo.account 0 100 100 0 (Ok (Some "bought")) (Ok (Some "sold"))))) /\
    total_cash Demo.lib (Demo.bot "0.5" false None) a b = Returned total.
Proof.
  split; [reflexivity|]. split; [reflexivity|].
  apply (@buy_divides_by_zero_only_by_ask_price _ Demo.lib Demo.env
           (Demo.bot "0.5" false None) (PCoin "USDT") (PStr "DOGE")
           (Demo.account 0 100 100 0 (Ok (Some "bought")) (Ok (Some "sold")))
           DivisionByZero).
  - reflexivity.
  - reflexivity.
Defined.

(* ================================================================== *)
(** ** ContentExtractor: [get_image_text] and lines 133-140 *)

Section ContentExtractor.
Variable W : Type.
Variable lib : Library.
Variable env : Collaborators W.
Variable self : ElonBot.

(** Without a url nothing is asked of the OCR service. *)
Lemma get_image_text_without_uri (uri : json) (w : W) :
  is_none_or_empty uri = true ->
  get_image_text env uri w = (Returned "", w, []).
Proof. intros H. unfold get_image_text. rewrite H. reflexivity. Qed.

(** With a url the method never returns: whatever text detection answers,
    the next statement is a call of [self.logger.info], in the [try] block
    or in the handler, and the one in the handler is not protected. *)
Lemma get_image_text_with_uri (uri : json) (w : W) :
  is_none_or_empty uri = false ->
  (exists what, result_of (get_image_text env uri w) = Raised (External what) /\
                fst (import_vision env w) = Fails what) \/
  result_of (get_image_text env uri w) = Raised (NameError "self").
Proof.
  intros H. unfold get_image_text. rewrite H. unfold static_logger_info. unfold_run.
  destruct (import_vision env w) as [[[]|what] w1]; simpl.
  - right.
    destruct (text_detection env uri w1) as [[response|what] w2]; simpl.
    + destruct (nonempty (error_message response)); reflexivity.
    + reflexivity.
  - left. exists what. split; reflexivity.
Qed.

(** No run of [get_image_text] opens a connection to the stream. *)
Lemma get_image_text_connections (uri : json) (w : W) :
  connections (trace_of (get_image_text env uri w)) = [].
Proof.
  unfold get_image_text, static_logger_info. unfold_run.
  destruct (is_none_or_empty uri); [reflexivity|].
  destruct (import_vision env w) as [[[]|what] w1]; simpl; [|reflexivity].
  destruct (text_detection env uri w1) as [[response|what] w2]; simpl.
  - destruct (nonempty (error_message response)); reflexivity.
  - reflexivity.
Qed.


(** X21. The text in which the rules are searched is the text of the
    post followed by the separator, and nothing is asked of the OCR
    service, in two cases: [use_image_signal] is off, whatever image url
    the post carries; or the post carries no usable image url ([None] or
    ['']). *)
Lemma full_text_without_image_url (payload : string) (tweet_json data url : json)
    (tweet_text : string) (w : W) :
  json_loads lib payload = Some tweet_json ->
  subscript tweet_json "data" = Returned data ->
  subscript data "text" = Returned (JStr tweet_text) ->
  image_url_of tweet_json = Returned url ->
  use_image_signal self = false \/ is_none_or_empty url = true ->
  full_text_of lib env self payload w
  = (Returned (tweet_text ++ " "), w, [EvInfo (MsgTweetReceived tweet_json)]).
Proof.
  intros Hj Hd Ht Hu Hcase. unfold full_text_of. rewrite Hj. unfold_run. simpl.
  rewrite Hd. simpl. rewrite Ht. simpl. rewrite Hu. simpl.
  destruct Hcase as [Hoff|He].
  - rewrite Hoff. reflexivity.
  - destruct (use_image_signal self).
    + rewrite (get_image_text_without_uri _ _ He). reflexivity.
    + reflexivity.
Qed.
End ContentExtractor.

(* ================================================================== *)
(** ** StreamConsumer: [has_crypto_tweet] *)

Section StreamConsumer.
Variable W : Type.
Variable lib : Library.
Variable env : Collaborators W.
Variable self : ElonBot.

Lemma connections_app (t1 t2 : list event) :
  connections (t1 ++ t2) = (connections t1 ++ connections t2)%list.
Proof. apply filter_app. Qed.

(** A sequence of two computations that open no connection opens none. *)
Lemma bind_connections {A B} (m : M W A) (k : A -> M W B) (w : W) :
  connections (trace_of (m w)) = [] ->
  (forall a w', connections (trace_of (k a w')) = []) ->
  connections (trace_of (bind m k w)) = [].
Proof.
  intros Hm Hk. unfold bind, trace_of in *.
  destruct (m w) as [[[a|e] w1] t1]; simpl in *.
  - specialize (Hk a w1). destruct (k a w1) as [[r w2] t2]. simpl in *.
    rewrite connections_app, Hm, Hk. reflexivity.
  - exact Hm.
Qed.

Lemma lift_connections {A} (o : outcome A) (w : W) :
  connections (trace_of (lift o w)) = [].
Proof. reflexivity. Qed.

Lemma match_rules_connections rules (T : string) (w : W) :
  connections (trace_of (match_rules lib rules T w)) = [].
Proof.
  induction rules as [|[p tk] rest IH]; simpl; [reflexivity|].
  destruct (re_search_I lib p (unidecode lib T)) as [[|]|]; [reflexivity|exact IH|reflexivity].
Qed.

Lemma tweet_has_crypto_connections (tweet_json : string) (c : pyval) (w : W) :
  connections (trace_of (tweet_has_crypto lib env self tweet_json c w)) = [].
Proof.
  unfold tweet_has_crypto. apply bind_connections.
  - unfold full_text_of. destruct (json_loads lib tweet_json); [|reflexivity].
    apply bind_connections; [reflexivity|]. intros _ w1.
    apply bind_connections; [apply lift_connections|]. intros data w2.
    apply bind_connections; [apply lift_connections|]. intros tweet_text w3.
    apply bind_connections; [apply lift_connections|]. intros url w4.
    apply bind_connections.
    + destruct (use_image_signal self); [apply get_image_text_connections|reflexivity].
    + reflexivity.
  - intros T w1. apply match_rules_connections.
Qed.

Lemma for_response_lines_connections on_line lines (w : W) :
  (forall l w', connections (trace_of (on_line l w')) = []) ->
  connections (trace_of (for_response_lines on_line lines w)) = [].
Proof.
  intros Hl. revert w. induction lines as [|line rest IH]; intros w; simpl; [reflexivity|].
  apply bind_connections; [apply lift_connections|]. intros l w1.
  destruct (nonempty l); [|apply IH].
  apply bind_connections; [apply Hl|]. intros [t|] w2; [reflexivity|apply IH].
Qed.

(** The body of [while True] never reaches its end: it returns or raises. *)
Lemma connect_and_consume_leaves_the_loop on_line (timeout : Z) (w : W) :
  result_of (connect_and_consume env on_line timeout w) <> Returned Next.
Proof.
  unfold connect_and_consume. unfold_run.
  destruct (requests_get env timeout w) as [[response|what] w1]; simpl; [|discriminate].
  destruct (negb (status_code response =? 200)%Z); simpl.
  - unfold time_sleep. simpl.
    destruct (for_response_lines on_line (iter_lines response) w1) as [[[[v|]|e] w2] t2];
      simpl; discriminate.
  - destruct (for_response_lines on_line (iter_lines response) w1) as [[[[v|]|e] w2] t2];
      simpl; discriminate.
Qed.

(** One pass through the loop body opens one connection. *)
Lemma connect_and_consume_connections on_line (timeout : Z) (w : W) :
  (forall l w', connections (trace_of (on_line l w')) = []) ->
  List.length (connections (trace_of (connect_and_consume env on_line timeout w))) = 1%nat.
Proof.
  intros Hl. unfold connect_and_consume.
  unfold bind at 1. unfold call at 1.
  destruct (requests_get env timeout w) as [[response|what] w1]; simpl; [|reflexivity].
  match goal with
  | |- context [bind ?m ?k w1] =>
      assert (H : connections (trace_of (bind m k w1)) = [])
  end.
  { apply bind_connections; [reflexivity|]. intros _ w2.
    apply bind_connections.
    - destruct (negb (status_code response =? 200)%Z); [|reflexivity].
      apply bind_connections; [reflexivity|]. intros _ w3.
      apply bind_connections; [reflexivity|]. intros _ w4. reflexivity.
    - intros _ w3. apply bind_connections.
      + apply for_response_lines_connections. exact Hl.
      + intros [v|] w4; reflexivity. }
  unfold trace_of in *.
  match goal with
  | |- context [bind ?m ?k w1] => destruct (bind m k w1) as [[r w2] t2]
  end.
  simpl in *. rewrite H. reflexivity.
Qed.

(** The loop makes one pass, whatever the fuel. *)
Lemma while_true_connect_and_consume on_line (timeout : Z) (fuel : nat) (w : W) :
  while_true (S fuel) (connect_and_consume env on_line timeout) w
  = bind (connect_and_consume env on_line timeout)
         (fun c => match c with Return v => ret (Some v) | Next => ret None end) w.
Proof.
  pose proof (connect_and_consume_leaves_the_loop on_line timeout w) as H.
  simpl. unfold bind, result_of in *.
  destruct (connect_and_consume env on_line timeout w) as [[[[v|]|e] w1] t1]; simpl in *;
    try reflexivity.
  congruence.
Qed.

(** The consumer opens at most one connection: it never goes back to
    connecting. *)
Lemma stream_consumer_connects_once on_payload on_line (timeout : Z) (fuel : nat) (w : W) :
  (forall l w', connections (trace_of (on_payload l w')) = []) ->
  (forall l w', connections (trace_of (on_line l w')) = []) ->
  (List.length (connections
            (trace_of (stream_consumer env self on_payload on_line timeout fuel w))) <= 1)%nat.
Proof.
  intros Hp Hl. unfold stream_consumer.
  destruct (process_tweet_text self) as [payload|].
  - rewrite bind_connections; [simpl; lia|apply Hp|reflexivity].
  - unfold bind at 1. unfold call at 1.
    destruct (reset_twitter_subscription_rules env (user self) w) as [[[]|what] w1];
      simpl; [|lia].
    destruct fuel as [|fuel]; [simpl; lia|].
    rewrite while_true_connect_and_consume.
    pose proof (connect_and_consume_connections on_line timeout w1 Hl) as H.
    unfold bind, trace_of in *.
    destruct (connect_and_consume env on_line timeout w1) as [[[[v|]|e] w2] t2];
      simpl in *; try rewrite connections_app; simpl; try rewrite app_nil_r; lia.
Qed.

(** X23. No run of [has_crypto_tweet] opens more than one connection. *)
Lemma has_crypto_tweet_connects_once (timeout : Z) (fuel : nat) (w : W) :
  (List.length (connections (trace_of (has_crypto_tweet lib env self timeout fuel w))) <= 1)%nat.
Proof.
  apply stream_consumer_connects_once.
  - intros l w'. reflexivity.
  - intros l w'. reflexivity.
Qed.

Lemma has_crypto_tweet_passing_connects_once (c : pyval) (timeout : Z) (fuel : nat) (w : W) :
  (List.length (connections
            (trace_of (has_crypto_tweet_passing lib env self c timeout fuel w))) <= 1)%nat.
Proof.
  apply stream_consumer_connects_once; intros l w'; apply tweet_has_crypto_connections.
Qed.

(** The dry run stops on the unbound name before anything is done. *)
Lemma literal_payload_stops_on_unbound_name (payload : string) (timeout : Z) (fuel : nat) (w : W) :
  process_tweet_text self = Some payload ->
  has_crypto_tweet lib env self timeout fuel w = (Raised (NameError "current_coin"), w, []).
Proof.
  intros H. unfold has_crypto_tweet, stream_consumer. rewrite H. reflexivity.
Qed.

(** With [current_coin] bound, the dry run is the pipeline on the payload. *)
Lemma literal_payload_runs_the_pipeline (payload : string) (c : pyval) (timeout : Z) (fuel : nat) (w : W) :
  process_tweet_text self = Some payload ->
  has_crypto_tweet_passing lib env self c timeout fuel w
  = bind (tweet_has_crypto lib env self payload c) (fun v => ret (Some v)) w.
Proof.
  intros H. unfold has_crypto_tweet_passing, stream_consumer. rewrite H. reflexivity.
Qed.

(** A line that [json.loads] rejects ends the run of the pipeline. *)
Lemma tweet_has_crypto_malformed (line : string) (c : pyval) (w : W) :
  json_loads lib line = None ->
  tweet_has_crypto lib env self line c w = (Raised JSONDecodeError, w, []).
Proof.
  intros H. unfold tweet_has_crypto, full_text_of. rewrite H. reflexivity.
Qed.

(** An exception on a line ends the loop over the lines: the lines after
    it are not read. *)
Lemma for_response_lines_raises on_line (line : string) rest (e : exn) (w : W) :
  nonempty line = true ->
  on_line line w = (Raised e, w, []) ->
  for_response_lines on_line (Ok line :: rest) w = (Raised e, w, []).
Proof.
  intros Hn He. simpl. unfold bind, lift. simpl. rewrite Hn, He. reflexivity.
Qed.
End StreamConsumer.

(* ================================================================== *)
(** ** The content extractor and the stream consumer on concrete inputs *)

(** C5 is not what the code does. The post has an image and the image
    signal is on. When text detection cannot be reached, and when it
    answers with an error message, the handler or the branch that should
    return [''] first evaluates [self] inside the static method:
    [tweet_has_crypto] raises [NameError] to its caller. *)
Theorem ocr_failure_reaches_the_caller :
  result_of (tweet_has_crypto Demo.lib Demo.env (Demo.bot "max" true None)
               Demo.picture_tweet (PCoin "USDT")
               (Demo.network [] Demo.ocr_unreachable))
  = Raised (NameError "self") /\
  result_of (tweet_has_crypto Demo.lib Demo.env (Demo.bot "max" true None)
               Demo.picture_tweet (PCoin "USDT")
               (Demo.network [] Demo.ocr_bad_image))
  = Raised (NameError "self").
Proof. split; reflexivity. Qed.

(** A post without media, with the image signal on: the rules are searched
    in the text of the post alone. *)
Example post_without_media :
  result_of (tweet_has_crypto Demo.lib Demo.env (Demo.bot "max" true None)
               Demo.doge_tweet (PCoin "USDT")
               (Demo.network [] Demo.ocr_unreachable))
  = Returned (Some "DOGE").
Proof. reflexivity. Qed.

(** C6 is not what the code does. The first connection is answered 503
    with an empty body, and a second connection would deliver a matching
    post. The consumer logs, sleeps 60 seconds, iterates over the body of
    the 503 response and returns [None]: the second connection is never
    opened. When the body of a rejected connection has a line, the line is
    handed to [tweet_has_crypto] as if it were a post. *)
Theorem non_200_response_is_not_retried (fuel : nat) :
  result_of (has_crypto_tweet Demo.lib Demo.env (Demo.bot "max" false None) 86400 (S fuel)
               (Demo.network [Ok Demo.service_unavailable;
                              Ok (Demo.stream [Ok Demo.doge_tweet])]
                             Demo.ocr_unreachable))
  = Returned (Some None) /\
  trace_of (has_crypto_tweet Demo.lib Demo.env (Demo.bot "max" false None) 86400 (S fuel)
              (Demo.network [Ok Demo.service_unavailable;
                             Ok (Demo.stream [Ok Demo.doge_tweet])]
                            Demo.ocr_unreachable))
  = [EvResetRules "elonmusk";
     EvHttpGet (Ok Demo.service_unavailable);
     EvInfo (MsgSubscribing 503);
     EvError (MsgCannotGetStream 503 "");
     EvInfo MsgSleepingAndRetrying;
     EvSleep 60] /\
  result_of (has_crypto_tweet_passing Demo.lib Demo.env (Demo.bot "max" false None)
               (PCoin "USDT") 86400 (S fuel)
               (Demo.network [Ok Demo.service_unavailable;
                              Ok (Demo.stream [Ok Demo.doge_tweet])]
                             Demo.ocr_unreachable))
  = Returned (Some None) /\
  result_of (has_crypto_tweet Demo.lib Demo.env (Demo.bot "max" false None) 86400 (S fuel)
               (Demo.network [Ok Demo.too_many_connections;
                              Ok (Demo.stream [Ok Demo.doge_tweet])]
                             Demo.ocr_unreachable))
  = Raised (TypeError
      "tweet_has_crypto() missing 1 required positional argument: 'current_coin'") /\
  result_of (has_crypto_tweet_passing Demo.lib Demo.env (Demo.bot "max" false None)
               (PCoin "USDT") 86400 (S fuel)
               (Demo.network [Ok Demo.too_many_connections;
                              Ok (Demo.stream [Ok Demo.doge_tweet])]
                             Demo.ocr_unreachable))
  = Raised (KeyError "data").
Proof. repeat split; reflexivity. Qed.

(** C7 is not what the code does. The stream delivers a malformed line and
    then a matching post. The call on line 168 raises [TypeError] on the
    first line, which is not empty; when the call passes [current_coin],
    [json.loads] raises on the malformed line. Nothing catches either
    exception: [has_crypto_tweet] raises, and the post after the malformed
    line is not read. *)
Theorem malformed_line_ends_the_consumer (fuel : nat) :
  has_crypto_tweet Demo.lib Demo.env (Demo.bot "max" false None) 86400 (S fuel)
    (Demo.network [Ok (Demo.stream [Ok Demo.malformed_line; Ok Demo.doge_tweet])]
                  Demo.ocr_unreachable)
  = (Raised (TypeError
       "tweet_has_crypto() missing 1 required positional argument: 'current_coin'"),
     Demo.network [] Demo.ocr_unreachable,
     [EvResetRules "elonmusk";
      EvHttpGet (Ok (Demo.stream [Ok Demo.malformed_line; Ok Demo.doge_tweet]));
      EvInfo (MsgSubscribing 200)]) /\
  has_crypto_tweet_passing Demo.lib Demo.env (Demo.bot "max" false None)
    (PCoin "USDT") 86400 (S fuel)
    (Demo.network [Ok (Demo.stream [Ok Demo.malformed_line; Ok Demo.doge_tweet])]
                  Demo.ocr_unreachable)
  = (Raised JSONDecodeError,
     Demo.network [] Demo.ocr_unreachable,
     [EvResetRules "elonmusk";
      EvHttpGet (Ok (Demo.stream [Ok Demo.malformed_line; Ok Demo.doge_tweet]));
      EvInfo (MsgSubscribing 200)]).
Proof. split; reflexivity. Qed.

(** The same stream without the malformed line, when the call passes
    [current_coin]: the post is matched. *)
Example well_formed_line_is_matched (fuel : nat) :
  result_of (has_crypto_tweet_passing Demo.lib Demo.env (Demo.bot "max" false None)
               (PCoin "USDT") 86400 (S fuel)
               (Demo.network [Ok (Demo.stream [Ok ""; Ok Demo.doge_tweet])]
                             Demo.ocr_unreachable))
  = Returned (Some (Some "DOGE")).
Proof. reflexivity. Qed.

(** C8 is not what the code does. With a literal payload the method opens
    no connection and places no order, but it does not return the result
    of the pipeline: the call on line 150 reads [current_coin], which is
    bound nowhere, and raises [NameError] before the pipeline starts. When
    the call passes a coin, the result of the pipeline is returned. *)
Theorem dry_run_raises_name_error (fuel : nat) :
  has_crypto_tweet Demo.lib Demo.env (Demo.bot "max" false (Some Demo.doge_tweet))
    86400 fuel (Demo.network [Ok (Demo.stream [])] Demo.ocr_unreachable)
  = (Raised (NameError "current_coin"),
     Demo.network [Ok (Demo.stream [])] Demo.ocr_unreachable,
     []) /\
  result_of (has_crypto_tweet_passing Demo.lib Demo.env
               (Demo.bot "max" false (Some Demo.doge_tweet)) (PCoin "USDT")
               86400 fuel (Demo.network [Ok (Demo.stream [])] Demo.ocr_unreachable))
  = Returned (Some (Some "DOGE")) /\
  connections
    (trace_of (has_crypto_tweet_passing Demo.lib Demo.env
                 (Demo.bot "max" false (Some Demo.doge_tweet)) (PCoin "USDT")
                 86400 fuel (Demo.network [Ok (Demo.stream [])] Demo.ocr_unreachable)))
  = [] /\
  order_calls
    (trace_of (has_crypto_tweet_passing Demo.lib Demo.env
                 (Demo.bot "max" false (Some Demo.doge_tweet)) (PCoin "USDT")
                 86400 fuel (Demo.network [Ok (Demo.stream [])] Demo.ocr_unreachable)))
  = [].
Proof. repeat split; reflexivity. Qed.

(** The whole cycle on the account: both orders are reported. *)
Example trade_buys_and_sells :
  result_of (trade Demo.lib Demo.env (Demo.bot "0.5" false None)
               (PStr "DOGE") (PCoin "USDT")
               (Demo.account 2 100 100 25 (Ok (Some "bought")) (Ok (Some "sold"))))
  = Returned (Some ("bought", Some "sold")).
Proof. reflexivity. Qed.

(* ================================================================== *)
(** ** More on the rule matcher *)

Section RuleMatcherMore.
Variable W : Type.
Variable lib : Library.

(** X1. [match_rules] raises exactly when it reaches a pattern that does
    not compile before any pattern is found, and then it raises
    [re.error]: a bad pattern behind the first match is never compiled. *)
Theorem match_rules_raises_iff (rules : list (string * string)) (T : string) (w : W)
    (e : exn) :
  result_of (match_rules lib rules T w) = Raised e <->
  e = ReError /\
  exists before re_pattern ticker after,
    rules = (before ++ (re_pattern, ticker) :: after)%list /\
    search lib T re_pattern = None /\
    Forall (fun rule => search lib T (fst rule) = Some false) before.
Proof.
  induction rules as [|[p tk] rest IH].
  - split; [discriminate|].
    intros (_ & before & q & tk & after & E & _). destruct before; discriminate.
  - destruct (search lib T p) as [[|]|] eqn:S.
    + rewrite match_rules_hit by exact S. split; [discriminate|].
      intros (_ & before & q & tk' & after & E & Hq & Hb).
      destruct before as [|[p' tk''] before]; simpl in E; injection E as <- _ _.
      * congruence.
      * inversion Hb as [|? ? Hp _]. simpl in Hp. congruence.
    + rewrite match_rules_miss by exact S. rewrite IH. split.
      * intros (-> & before & q & tk' & after & -> & Hq & Hb). split; [reflexivity|].
        exists ((p, tk) :: before), q, tk', after. repeat split; auto.
      * intros (-> & before & q & tk' & after & E & Hq & Hb). split; [reflexivity|].
        destruct before as [|[p' tk''] before]; simpl in E.
        -- injection E as <- _ _. congruence.
        -- injection E as _ _ ->. inversion Hb; subst.
           exists before, q, tk', after. repeat split; auto.
    + rewrite match_rules_error by exact S. split.
      * intros E. injection E as <-. split; [reflexivity|].
        exists [], p, tk, rest. repeat split; auto.
      * intros (-> & _). reflexivity.
Qed.

(** X2. The matcher leaves the world as it is and logs only a match: when
    it returns a ticker, the trace is the single line that names the
    pattern that was found and the ticker, and the pair is a rule; in
    every other run the trace is empty. *)
Theorem match_rules_logs_the_match (rules : list (string * string)) (T : string) (w : W) :
  world_of (match_rules lib rules T w) = w /\
  match result_of (match_rules lib rules T w) with
  | Returned (Some ticker) =>
      exists re_pattern,
        In (re_pattern, ticker) rules /\
        search lib T re_pattern = Some true /\
        trace_of (match_rules lib rules T w) = [EvInfo (MsgMatched re_pattern ticker)]
  | _ => trace_of (match_rules lib rules T w) = []
  end.
Proof.
  induction rules as [|[p tk] rest [IHw IHt]]; [split; reflexivity|].
  destruct (search lib T p) as [[|]|] eqn:S.
  - unfold search in S. simpl. rewrite S. split; [reflexivity|]. simpl.
    exists p. repeat split; auto.
  - rewrite match_rules_miss by exact S. split; [exact IHw|].
    destruct (result_of (match_rules lib rest T w)) as [[ticker|]|e]; auto.
    destruct IHt as (q & Hin & Hq & Ht). exists q. repeat split; auto. right. exact Hin.
  - unfold search in S. simpl. rewrite S. split; reflexivity.
Qed.
End RuleMatcherMore.

(* ================================================================== *)
(** ** More on the content extractor *)

Section ContentExtractorMore.
Variable W : Type.
Variable lib : Library.
Variable env : Collaborators W.
Variable self : ElonBot.

(** X3. [get_image_text] returns only for the uri [None] or [''], and then
    it returns [''] without importing the vision client or asking for a
    text detection; for every other uri no run returns. *)
Theorem get_image_text_returns_only_without_uri (uri : json) (w : W) :
  if is_none_or_empty uri
  then get_image_text env uri w = (Returned "", w, [])
  else forall s, result_of (get_image_text env uri w) <> Returned s.
Proof.
  destruct (is_none_or_empty uri) eqn:E.
  - apply get_image_text_without_uri. exact E.
  - intros s H.
    destruct (get_image_text_with_uri env uri w E) as [(what & Hr & _)|Hr];
      rewrite Hr in H; discriminate H.
Qed.

(** The events of a sequence are those of its parts. *)
Lemma bind_filter (keep : event -> bool) {A B} (m : M W A) (k : A -> M W B) (w : W) :
  filter keep (trace_of (m w)) = [] ->
  (forall a w', filter keep (trace_of (k a w')) = []) ->
  filter keep (trace_of (bind m k w)) = [].
Proof.
  intros Hm Hk. unfold bind, trace_of in *.
  destruct (m w) as [[[a|e] w1] t1]; simpl in *.
  - specialize (Hk a w1). destruct (k a w1) as [[r w2] t2]. simpl in *.
    rewrite filter_app, Hm, Hk. reflexivity.
  - exact Hm.
Qed.

Lemma match_rules_filter (keep : event -> bool) rules (T : string) (w : W) :
  (forall m, keep (EvInfo m) = false) ->
  filter keep (trace_of (match_rules lib rules T w)) = [].
Proof.
  intros Hk. induction rules as [|[p tk] rest IH]; simpl; [reflexivity|].
  destruct (re_search_I lib p (unidecode lib T)) as [[|]|]; [|exact IH|reflexivity].
  simpl. rewrite Hk. reflexivity.
Qed.

(** X4. With the image signal off, no run of [tweet_has_crypto] touches
    the OCR service: the vision client is neither imported nor called,
    whatever the post attaches. *)
Theorem image_signal_off_never_calls_ocr (tweet_json : string) (c : pyval) (w : W) :
  use_image_signal self = false ->
  vision_calls (trace_of (tweet_has_crypto lib env self tweet_json c w)) = [].
Proof.
  intros Hoff. unfold vision_calls, tweet_has_crypto. apply bind_filter.
  - unfold full_text_of. destruct (json_loads lib tweet_json); [|reflexivity].
    apply bind_filter; [reflexivity|]. intros _ w1.
    apply bind_filter; [reflexivity|]. intros data w2.
    apply bind_filter; [reflexivity|]. intros tweet_text w3.
    apply bind_filter; [reflexivity|]. intros url w4.
    rewrite Hoff. reflexivity.
  - intros T w1. apply match_rules_filter. reflexivity.
Qed.

(** X5. Line 136 on a decoded object: the image url is [''] when the post
    has no [includes], when [includes] has no [media], when [media] is
    empty and when the first media item has no [url]; otherwise it is the
    [url] of the first item, and the items after the first never count. *)
Theorem image_url_of_first_media_item (fields includes item : list (string * json))
    (others : list json) :
  (assoc "includes" fields = None ->
   image_url_of (JObj fields) = Returned (JStr "")) /\
  (assoc "includes" fields = Some (JObj includes) ->
   (assoc "media" includes = None ->
    image_url_of (JObj fields) = Returned (JStr "")) /\
   (assoc "media" includes = Some (JArr []) ->
    image_url_of (JObj fields) = Returned (JStr "")) /\
   (assoc "media" includes = Some (JArr (JObj item :: others)) ->
    image_url_of (JObj fields)
    = Returned (match assoc "url" item with Some url => url | None => JStr "" end))).
Proof.
  unfold image_url_of, obind, dict_get. split.
  - intros ->. reflexivity.
  - intros ->. repeat split; intros ->; simpl; try reflexivity.
    destruct (assoc "url" item); reflexivity.
Qed.

(** X6. A decoded payload without [data], or whose [data] has no [text],
    ends [tweet_has_crypto] with [KeyError] right after the payload is
    logged: nothing is searched and the OCR service is not asked. *)
Theorem payload_without_text_raises_key_error (payload : string)
    (fields data : list (string * json)) (c : pyval) (w : W) :
  json_loads lib payload = Some (JObj fields) ->
  (assoc "data" fields = None ->
   tweet_has_crypto lib env self payload c w
   = (Raised (KeyError "data"), w, [EvInfo (MsgTweetReceived (JObj fields))])) /\
  (assoc "data" fields = Some (JObj data) ->
   assoc "text" data = None ->
   tweet_has_crypto lib env self payload c w
   = (Raised (KeyError "text"), w, [EvInfo (MsgTweetReceived (JObj fields))])).
Proof.
  intros Hj. unfold tweet_has_crypto, full_text_of. rewrite Hj. split.
  - intros Hd. unfold_run. simpl. rewrite Hd. reflexivity.
  - intros Hd Ht. unfold_run. simpl. rewrite Hd. simpl. rewrite Ht. reflexivity.
Qed.
End ContentExtractorMore.

(* ================================================================== *)
(** ** More on the trade executor *)

Section TradeExecutorMore.
Variable W : Type.
Variable lib : Library.
Variable env : Collaborators W.
Variable self : ElonBot.

Lemma order_calls_app (t1 t2 : list event) :
  order_calls (t1 ++ t2) = (order_calls t1 ++ order_calls t2)%list.
Proof. apply filter_app. Qed.

(** The order calls of a run of [buy]: none, or the one that ends it. *)
Lemma buy_run_order_calls coin ticker r tr :
  buy_run lib self coin ticker r tr ->
  order_calls tr = [] /\ (forall o, r <> Returned (Some o)) \/
  exists sym quantity answer,
    coin = PCoin sym /\ r = outcome_of_reply answer /\
    order_calls tr = [EvBuy quantity ticker (PStr sym) answer].
Proof.
  intros B. inversion B; subst; simpl;
    try (left; split; [reflexivity|discriminate]).
  right. eauto 10.
Qed.

Lemma sell_run_order_calls ticker r tr :
  sell_run self ticker r tr ->
  order_calls tr = [] /\ (exists what, r = Raised (External what)) \/
  exists quantity answer,
    r = outcome_of_reply answer /\
    order_calls tr = [EvSell quantity ticker (bridge self) answer].
Proof.
  intros S. inversion S; subst; simpl.
  - left. eauto.
  - right. eauto.
Qed.

(** X7. The orders of a trade cycle. A run of [trade] places no order, or
    one buy order, or one buy order that the exchange answered with an
    order followed by one sell order. The buy order is for the [coin] of
    [trade], paid with [ticker.symbol]; the sell order is for the [ticker]
    of [trade] against the bridge. *)
Theorem trade_places_at_most_one_buy_then_one_sell coin ticker (w : W) :
  order_calls (trace_of (trade lib env self coin ticker w)) = [] \/
  (exists sym quantity answer,
      ticker = PCoin sym /\
      order_calls (trace_of (trade lib env self coin ticker w))
      = [EvBuy quantity coin (PStr sym) answer]) \/
  (exists sym quantity bought quantity' answer',
      ticker = PCoin sym /\
      order_calls (trace_of (trade lib env self coin ticker w))
      = [EvBuy quantity coin (PStr sym) (Ok (Some bought));
         EvSell quantity' ticker (bridge self) answer']).
Proof.
  pose proof (trade_runs lib env self coin ticker w) as R.
  destruct (trade lib env self coin ticker w) as [[r w'] tr].
  unfold result_of, trace_of in *. simpl in *.
  inversion R as [ | e tr0 B | tr0 B | bought tr0 B | bought tr0 e tr1 B S
                   | bought tr0 sold tr1 B S ]; subst;
    try (destruct (buy_run_order_calls B) as [[Hoc Hno]|(sym & q & a & -> & Ha & Hoc)]);
    try (destruct (sell_run_order_calls S) as [[Hs Hw]|(q' & a' & Hr & Hs)]);
    try (exfalso; apply (Hno bought); reflexivity);
    try (symmetry in Ha; apply outcome_of_reply_returned in Ha; subst a);
    unfold order_calls in *; simpl;
    try rewrite filter_app; simpl; try rewrite Hoc; try rewrite Hs; simpl.
  - left. reflexivity.
  - left. reflexivity.
  - right. left. eauto.
  - left. reflexivity.
  - right. left. eauto.
  - right. left. eauto.
  - right. left. eauto.
  - right. right. eauto 10.
  - destruct Hw as [what Hw]. discriminate Hw.
  - right. right. eauto 10.
Qed.

(** X8. What [trade] returns comes from the exchange: it returns the pair
    [(bought, sold)] exactly when its orders are a buy order that the
    exchange answered with [bought] and a sell order that it answered
    with [sold]. *)
Theorem trade_returns_the_answers_of_the_exchange coin ticker (w : W)
    (bought : order) (sold : option order) :
  result_of (trade lib env self coin ticker w) = Returned (Some (bought, sold)) <->
  exists sym quantity quantity',
    order_calls (trace_of (trade lib env self coin ticker w))
    = [EvBuy quantity coin (PStr sym) (Ok (Some bought));
       EvSell quantity' ticker (bridge self) (Ok sold)].
Proof.
  pose proof (trade_runs lib env self coin ticker w) as R.
  destruct (trade lib env self coin ticker w) as [[r w'] tr].
  unfold result_of, trace_of in *. simpl in *.
  inversion R as [ | e tr0 B | tr0 B | bought0 tr0 B | bought0 tr0 e tr1 B S
                   | bought0 tr0 sold0 tr1 B S ]; subst;
    try (destruct (buy_run_order_calls B) as [[Hoc Hno]|(sym & q & a & -> & Ha & Hoc)]);
    try (destruct (sell_run_order_calls S) as [[Hs Hw]|(q' & a' & Hr & Hs)]);
    try (exfalso; apply (Hno bought0); reflexivity);
    try (symmetry in Ha; apply outcome_of_reply_returned in Ha; subst a);
    unfold order_calls in *; simpl;
    try rewrite filter_app; simpl; try rewrite Hoc; try rewrite Hs; simpl;
    (split; [try discriminate | intros (sym' & x & x' & E); try discriminate E]).
  - injection E as _ _ _ _ Ea. subst a'. discriminate Hr.
  - destruct Hw as [what Hw]. discriminate Hw.
  - intros E. injection E as <- <-.
    symmetry in Hr. apply outcome_of_reply_returned in Hr. subst a'. eauto.
  - symmetry in Hr. apply outcome_of_reply_returned in Hr. subst a'.
    injection E as _ _ <- _ <-. reflexivity.
Qed.

(** X9. [trade] returns [None] only in two cases: the balance query
    answered an available amount of zero and no order was placed, or the
    exchange answered the buy order with no order and nothing was sold. *)
Theorem trade_returns_none_only_without_purchase coin ticker (w : W) :
  result_of (trade lib env self coin ticker w) = Returned None ->
  (exists a t,
      queried_available (trace_of (trade lib env self coin ticker w)) = Some (Ok (a, t)) /\
      (a == 0)%Q /\
      order_calls (trace_of (trade lib env self coin ticker w)) = []) \/
  (exists sym quantity,
      order_calls (trace_of (trade lib env self coin ticker w))
      = [EvBuy quantity coin (PStr sym) (Ok None)]).
Proof.
  pose proof (trade_runs lib env self coin ticker w) as R.
  destruct (trade lib env self coin ticker w) as [[r w'] tr].
  unfold result_of, trace_of in *. simpl in *. intros ->.
  inversion R as [ | | tr0 B | | | ]; subst.
  inversion B as [| | |sym ask a t _ Ha| | | |sym ask a t b total quantity answer _ Ha Ht Hq Hr];
    subst; simpl.
  - left. exists a, t. repeat split; auto.
  - right. apply outcome_of_reply_returned in Hr. subst answer. eauto.
Qed.

(** X10. What [trade] sells is what the exchange reports: the quantity of
    every sell order is the amount of the ticker that the balance query
    before it answered as available. *)
Theorem trade_sells_the_available_amount coin ticker (w : W) quantity tk proceeds answer :
  In (EvSell quantity tk proceeds answer) (trace_of (trade lib env self coin ticker w)) ->
  exists a,
    In (EvGetAvailableAsset (bridge self) ticker (Ok (a, quantity)))
       (trace_of (trade lib env self coin ticker w)).
Proof.
  intros H.
  pose proof (trade_runs lib env self coin ticker w) as R.
  destruct (trade lib env self coin ticker w) as [[r w'] tr].
  unfold result_of, trace_of in *. simpl in *.
  assert (Hsell : forall r1 tr1, sell_run self ticker r1 tr1 ->
            In (EvSell quantity tk proceeds answer) tr1 ->
            exists a, In (EvGetAvailableAsset (bridge self) ticker (Ok (a, quantity))) tr1).
  { intros r1 tr1 S Hin. inversion S; subst; in_cases Hin.
    injection Hin as -> _ _ _. eexists. left. reflexivity. }
  inversion R as [ | e tr0 B | tr0 B | bought tr0 B | bought tr0 e tr1 B S
                   | bought tr0 sold tr1 B S ]; subst.
  - contradiction.
  - destruct H as [H|H]; [discriminate|]. exfalso; eapply buy_run_no_sell; eassumption.
  - destruct H as [H|H]; [discriminate|]. exfalso; eapply buy_run_no_sell; eassumption.
  - destruct H as [H|H]; [discriminate|]. apply in_app_or in H.
    destruct H as [H|H]; [exfalso; eapply buy_run_no_sell; eassumption|].
    in_cases H.
  - destruct H as [H|H]; [discriminate|]. apply in_app_or in H.
    destruct H as [H|H]; [exfalso; eapply buy_run_no_sell; eassumption|].
    destruct H as [H|[H|H]]; try discriminate.
    destruct (Hsell _ _ S H) as [a Ha]. exists a.
    right. apply in_or_app. right. right. right. exact Ha.
  - destruct H as [H|H]; [discriminate|]. apply in_app_or in H.
    destruct H as [H|H]; [exfalso; eapply buy_run_no_sell; eassumption|].
    destruct H as [H|[H|H]]; try discriminate.
    destruct (Hsell _ _ S H) as [a Ha]. exists a.
    right. apply in_or_app. right. right. right. exact Ha.
Qed.

(** X11. An exception of [buy] leaves no order behind: when [buy] raises,
    either no order call was made, or the exception is the failure of the
    order call itself. *)
Theorem buy_raises_without_order coin ticker (w : W) (e : exn) :
  result_of (buy lib env self coin ticker w) = Raised e ->
  order_calls (trace_of (buy lib env self coin ticker w)) = [] \/
  exists sym quantity what,
    e = External what /\
    order_calls (trace_of (buy lib env self coin ticker w))
    = [EvBuy quantity ticker (PStr sym) (Fails what)].
Proof.
  intros Hr.
  pose proof (buy_runs lib env self coin ticker w) as B.
  destruct (buy lib env self coin ticker w) as [[r w'] tr].
  unfold result_of, trace_of in *. simpl in *. subst r.
  destruct (buy_run_order_calls B) as [[Hoc _]|(sym & q & a & _ & Ha & Hoc)].
  - left. exact Hoc.
  - right. symmetry in Ha. apply outcome_of_reply_raised in Ha.
    destruct Ha as (what & -> & ->). eauto.
Qed.

(** X12. With the order size ["max"], [buy] spends the available and the
    borrowable amount together: whenever both balances and a non-zero ask
    price were answered and the available amount is not zero, the order
    is placed for the [Decimal] quotient of the [Decimal] sum [a + b] by
    the ask price, the sum and the quotient each rounded to the 28
    significant digits of the context, whatever [float] and [Decimal]
    would make of the order size. *)
Theorem buy_max_order_size coin ticker (w : W) sym tk (ask a t b : Q) :
  order_size self = "max" ->
  In (EvGetAskPrice tk sym (Ok ask)) (trace_of (buy lib env self coin ticker w)) ->
  In (EvGetAvailableAsset sym tk (Ok (a, t))) (trace_of (buy lib env self coin ticker w)) ->
  In (EvGetMaxBorrowable sym tk (Ok b)) (trace_of (buy lib env self coin ticker w)) ->
  ~ (ask == 0)%Q ->
  exists answer,
    In (EvBuy (round28 (round28 (a + b) / ask)) tk sym answer)
       (trace_of (buy lib env self coin ticker w)) /\
    result_of (buy lib env self coin ticker w) = outcome_of_reply answer.
Proof.
  intros Hmax Hask Hav Hbo Hnz.
  assert (Ht : forall x y, total_cash lib self x y = Returned (round28 (x + y))).
  { intros x y. unfold total_cash. rewrite Hmax. reflexivity. }
  pose proof (buy_runs lib env self coin ticker w) as B.
  destruct (buy lib env self coin ticker w) as [[r w'] tr].
  unfold result_of, trace_of in *. simpl in *.
  inversion B as [ s | sym0 what | sym0 ask0 what | sym0 ask0 a0 t0 | sym0 ask0 a0 t0 what
                   | sym0 ask0 a0 t0 b0 e' _ Ha' Ht' | sym0 ask0 a0 t0 b0 total e' _ Ha' Ht' Hq
                   | sym0 ask0 a0 t0 b0 total quantity r0 _ Ha' Ht' Hq Hr ]; subst;
    in_cases Hask; in_cases Hav; in_cases Hbo.
  - rewrite Ht in Ht'. discriminate Ht'.
  - injection Hask as ? ? ?. subst. apply dec_div_raises in Hq. destruct Hq. contradiction.
  - injection Hask as ? ? ?. injection Hav as ? ? ? ?. injection Hbo as ?. subst.
    rewrite Ht in Ht'. injection Ht' as <-.
    apply dec_div_returns in Hq. destruct Hq as [_ ->].
    exists r0. simpl. tauto.
Qed.

(** X24. Lines 110-115 with a fractional order size, in a run of [buy]
    in which the exchange answered an available balance [a] and a
    borrowable balance [b]. The largest fraction is the [Decimal] quotient
    of [a + b] by [a]. The check on line 112 compares it with what [float]
    makes of the order size, [f]: when [f] is larger, [buy] raises the
    order size error in a run without order call. Otherwise the amount
    to spend is the [Decimal] product of [a] and what [Decimal] makes of
    the order size, [d], and the order is placed for that amount divided
    by the ask price, unless the ask price is zero. *)
Theorem buy_fraction_checked_as_float coin ticker (w : W) sym tk (a t b f d : Q) :
  order_size self <> "max" ->
  py_float lib (order_size self) = Some f ->
  py_Decimal lib (order_size self) = Some d ->
  In (EvGetAvailableAsset sym tk (Ok (a, t))) (trace_of (buy lib env self coin ticker w)) ->
  In (EvGetMaxBorrowable sym tk (Ok b)) (trace_of (buy lib env self coin ticker w)) ->
  ((round28 (round28 (a + b) / a) < f)%Q ->
     result_of (buy lib env self coin ticker w)
     = Raised (ValueError (OrderSizeExceedsMaxMargin (order_size self)
                             (round28 (round28 (a + b) / a)))) /\
     order_calls (trace_of (buy lib env self coin ticker w)) = [])
  /\
  ((f <= round28 (round28 (a + b) / a))%Q ->
     total_cash lib self a b = Returned (round28 (a * d)) /\
     forall tk' sym' ask,
       In (EvGetAskPrice tk' sym' (Ok ask)) (trace_of (buy lib env self coin ticker w)) ->
       ~ (ask == 0)%Q ->
       exists answer,
         In (EvBuy (round28 (round28 (a * d) / ask)) tk sym answer)
            (trace_of (buy lib env self coin ticker w)) /\
         result_of (buy lib env self coin ticker w) = outcome_of_reply answer).
Proof.
  intros Hmax Hf Hd Hav Hbo.
  pose proof (fun Ha0 => total_cash_fraction lib self b Hmax Hf Hd (a := a) Ha0) as Ht.
  unfold dec_add, dec_mul in Ht.
  pose proof (buy_runs lib env self coin ticker w) as B.
  destruct (buy lib env self coin ticker w) as [[r w'] tr].
  unfold result_of, trace_of in *. simpl in *.
  inversion B as [ s | sym0 what | sym0 ask what | sym0 ask a0 t0 | sym0 ask a0 t0 what
                   | sym0 ask a0 t0 b0 e' _ Ha' Ht' | sym0 ask a0 t0 b0 total e' _ Ha' Ht' Hq
                   | sym0 ask a0 t0 b0 total quantity r0 _ Ha' Ht' Hq Hr ]; subst;
    in_cases Hav; in_cases Hbo.
  - (* the order size is rejected *)
    injection Hav as ? ? ? ?. injection Hbo as ?. subst.
    specialize (Ht Ha'). rewrite Ht in Ht'. split.
    + intros Hlt. apply Qgt_bool_true in Hlt. rewrite Hlt in Ht'.
      injection Ht' as <-. split; reflexivity.
    + intros Hle. apply Qgt_bool_false in Hle. rewrite Hle in Ht'. discriminate.
  - (* the ask price is zero *)
    injection Hav as ? ? ? ?. injection Hbo as ?. subst.
    specialize (Ht Ha'). rewrite Ht in Ht'.
    apply dec_div_raises in Hq. destruct Hq as [Hask _]. split.
    + intros Hlt. apply Qgt_bool_true in Hlt. rewrite Hlt in Ht'. discriminate.
    + intros Hle. rewrite Ht. apply Qgt_bool_false in Hle. rewrite Hle.
      split; [reflexivity|].
      intros tk' sym' ask' Hin Hnz. in_cases Hin. injection Hin as _ _ <-. contradiction.
  - (* the order is placed *)
    injection Hav as ? ? ? ?. injection Hbo as ?. subst.
    specialize (Ht Ha'). rewrite Ht in Ht'.
    apply dec_div_returns in Hq. destruct Hq as [Hask ->]. split.
    + intros Hlt. apply Qgt_bool_true in Hlt. rewrite Hlt in Ht'. discriminate.
    + intros Hle. rewrite Ht. apply Qgt_bool_false in Hle. rewrite Hle in *.
      injection Ht' as <-. split; [reflexivity|].
      intros tk' sym' ask' Hin Hnz. in_cases Hin. injection Hin as _ _ <-.
      exists r0. simpl. tauto.
Qed.

(** X13. A negative [auto_sell_delay] leaves the purchase unsold: after a
    buy order that the exchange answered with an order, [time.sleep]
    raises [ValueError] and the buy order is the only order of the run. *)
Theorem negative_sell_delay_leaves_the_purchase coin ticker (w : W)
    quantity tk funding bought :
  (auto_sell_delay self < 0)%Q ->
  In (EvBuy quantity tk funding (Ok (Some bought)))
     (trace_of (trade lib env self coin ticker w)) ->
  result_of (trade lib env self coin ticker w) = Raised (ValueError NegativeSleepLength) /\
  order_calls (trace_of (trade lib env self coin ticker w))
  = [EvBuy quantity tk funding (Ok (Some bought))].
Proof.
  intros Hd H.
  unfold trade, result_of, trace_of, bind, emit, ret in *.
  destruct (time_sleep_run (auto_buy_delay self) w) as [[_ Eb]|[_ Eb]];
    rewrite Eb in *; simpl in *; [|contradiction].
  pose proof (buy_runs lib env self ticker coin w) as B.
  unfold result_of, trace_of in B.
  destruct (buy lib env self ticker coin w) as [[[[bought0|]|e] w1] tr]; simpl in *.
  - destruct (time_sleep_run (auto_sell_delay self) w1) as [[Hp _]|[_ Es]].
    + exfalso. apply (Qlt_not_le _ _ Hd Hp).
    + rewrite Es in *. simpl in *.
      apply buy_run_bought in B.
      destruct B as (sym & ask & a0 & t0 & b & total & _ & _ & _ & ->).
      destruct H as [H|H]; [discriminate|]. in_cases H.
      injection H as ? ? ? ?. subst. split; reflexivity.
  - rewrite app_nil_r in H. destruct H as [H|H]; [discriminate|].
    inversion B; subst; in_cases H.
    match goal with E : outcome_of_reply _ = Returned None |- _ =>
      apply outcome_of_reply_returned in E; subst end.
    discriminate H.
  - destruct H as [H|H]; [discriminate|].
    inversion B; subst; in_cases H.
    match goal with E : outcome_of_reply _ = Raised _ |- _ =>
      apply outcome_of_reply_raised in E; destruct E as (what & -> & _) end.
    discriminate H.
Qed.
End TradeExecutorMore.

(* ================================================================== *)
(** ** More on the stream consumer *)

Section StreamConsumerMore.
Variable W : Type.
Variable lib : Library.
Variable env : Collaborators W.
Variable self : ElonBot.

(** The loop over the lines with the call of line 168: it logs nothing and
    ends on the first line that cannot be read or is not empty. *)
Lemma for_response_lines_line_168 (lines : list (reply string)) (w : W) :
  exists r,
    for_response_lines (@call_line_168 W) lines w = (r, w, []) /\
    (r = Returned Next \/
     (exists what, r = Raised (External what)) \/
     r = Raised (TypeError
       "tweet_has_crypto() missing 1 required positional argument: 'current_coin'")).
Proof.
  induction lines as [|[line|what] rest IH]; simpl.
  - eexists. split; [reflexivity|]. left. reflexivity.
  - unfold bind, lift. simpl. destruct (nonempty line).
    + eexists. split; [reflexivity|]. right. right. reflexivity.
    + destruct IH as (r & -> & Hr). exists r. split; [reflexivity|exact Hr].
  - eexists. split; [reflexivity|]. right. left. eauto.
Qed.

(** X14. [has_crypto_tweet] never returns a ticker. Every run ends with
    [NameError] (a literal payload), with the failure of a collaborator,
    with [TypeError] (the first line that is not empty), or by returning
    [None]; without fuel it is still in the loop. *)
Theorem has_crypto_tweet_never_returns_a_ticker (timeout : Z) (fuel : nat) (w : W) :
  (forall ticker,
      result_of (has_crypto_tweet lib env self timeout fuel w)
      <> Returned (Some (Some ticker))) /\
  (result_of (has_crypto_tweet lib env self timeout fuel w)
   = Raised (NameError "current_coin") \/
   (exists what,
       result_of (has_crypto_tweet lib env self timeout fuel w) = Raised (External what)) \/
   result_of (has_crypto_tweet lib env self timeout fuel w)
   = Raised (TypeError
       "tweet_has_crypto() missing 1 required positional argument: 'current_coin'") \/
   result_of (has_crypto_tweet lib env self timeout fuel w) = Returned (Some None) \/
   (fuel = 0%nat /\
    result_of (has_crypto_tweet lib env self timeout fuel w) = Returned None)).
Proof.
  remember (result_of (has_crypto_tweet lib env self timeout fuel w)) as r eqn:Er.
  cut (r = Raised (NameError "current_coin") \/
       (exists what, r = Raised (External what)) \/
       r = Raised (TypeError
             "tweet_has_crypto() missing 1 required positional argument: 'current_coin'") \/
       r = Returned (Some None) \/
       (fuel = 0%nat /\ r = Returned None)).
  { intros H. split; [|exact H]. intros ticker E. rewrite E in H.
    destruct H as [H|[[what H]|[H|[H|[_ H]]]]]; discriminate H. }
  revert Er. unfold has_crypto_tweet, stream_consumer.
  destruct (process_tweet_text self) as [payload|]; [intros ->; left; reflexivity|].
  unfold bind at 1. unfold call at 1.
  destruct (reset_twitter_subscription_rules env (user self) w) as [[[]|what] w1]; simpl;
    [|intros ->; right; left; eexists; reflexivity].
  destruct fuel as [|fuel]; [intros ->; do 4 right; split; reflexivity|].
  rewrite while_true_connect_and_consume.
  unfold connect_and_consume. unfold_run.
  destruct (requests_get env timeout w1) as [[response|what] w2]; simpl;
    [|intros ->; right; left; eexists; reflexivity].
  destruct (for_response_lines_line_168 (iter_lines response) w2) as (r' & Hl & Hr).
  destruct (negb (status_code response =? 200)%Z); simpl; rewrite Hl; simpl;
    destruct Hr as [ -> | [ [what ->] | -> ] ]; simpl; intros ->; eauto 10.
Qed.

(** X15. The loop makes one pass: every positive amount of fuel gives the
    run that one unit of fuel gives. *)
Theorem has_crypto_tweet_makes_one_pass (timeout : Z) (fuel : nat) (w : W) :
  has_crypto_tweet lib env self timeout (S fuel) w
  = has_crypto_tweet lib env self timeout 1 w.
Proof.
  unfold has_crypto_tweet, stream_consumer.
  destruct (process_tweet_text self); [reflexivity|].
  unfold bind.
  destruct (call (reset_twitter_subscription_rules env (user self))
                 (fun _ => EvResetRules (user self)) w) as [[[[]|e] w1] t1];
    [|reflexivity].
  rewrite !while_true_connect_and_consume. reflexivity.
Qed.

(** X16. The events of a connection that is answered. After the rule
    reset and the request, the status is logged; a status other than 200
    is followed by the error line with the status and the body, the
    retry line and a sleep of 60 seconds, the status 200 by none of them;
    the lines of the body add no event. *)
Theorem answered_connection_events (timeout : Z) (fuel : nat) (w w1 w2 : W)
    (response : response) :
  process_tweet_text self = None ->
  reset_twitter_subscription_rules env (user self) w = (Ok tt, w1) ->
  requests_get env timeout w1 = (Ok response, w2) ->
  trace_of (has_crypto_tweet lib env self timeout (S fuel) w)
  = ([EvResetRules (user self);
      EvHttpGet (Ok response);
      EvInfo (MsgSubscribing (status_code response))]
     ++ (if (status_code response =? 200)%Z then []
         else [EvError (MsgCannotGetStream (status_code response) (text response));
               EvInfo MsgSleepingAndRetrying;
               EvSleep 60]))%list.
Proof.
  intros Hp Hreset Hget.
  unfold has_crypto_tweet, stream_consumer. rewrite Hp.
  unfold bind at 1. unfold call at 1. rewrite Hreset.
  cbv beta iota delta [outcome_of_reply].
  rewrite while_true_connect_and_consume.
  unfold connect_and_consume. unfold_run. rewrite Hget. simpl.
  destruct (for_response_lines_line_168 (iter_lines response) w2) as (r & Hl & Hr).
  destruct (status_code response =? 200)%Z; simpl; rewrite Hl; simpl;
    destruct r as [[v|]|e]; reflexivity.
Qed.

(** X17. A request that fails is not retried: the exception of
    [requests.get] ends the run after the rule reset and the request,
    without any sleep. *)
Theorem failed_request_is_not_retried (timeout : Z) (fuel : nat) (w w1 w2 : W)
    (what : string) :
  process_tweet_text self = None ->
  reset_twitter_subscription_rules env (user self) w = (Ok tt, w1) ->
  requests_get env timeout w1 = (Fails what, w2) ->
  has_crypto_tweet lib env self timeout (S fuel) w
  = (Raised (External what), w2,
     [EvResetRules (user self); EvHttpGet (Fails what)]).
Proof.
  intros Hp Hreset Hget.
  unfold has_crypto_tweet, stream_consumer. rewrite Hp.
  unfold bind at 1. unfold call at 1. rewrite Hreset.
  cbv beta iota delta [outcome_of_reply].
  rewrite while_true_connect_and_consume.
  unfold connect_and_consume. unfold_run. rewrite Hget. reflexivity.
Qed.
End StreamConsumerMore.

(* ================================================================== *)
(** ** The constructor and [info] *)

(** X18. The constructor completes only without a Twitter API key. With a
    key it raises [NameError], on [false] when the Google credentials are
    missing and on [true] otherwise. In no run are [use_image_signal],
    [process_tweet_text] or [dry_run] set, and no run reaches the sleep
    of ten seconds. *)
Theorem init_completes_only_without_key (user : string) (config : Config)
    (dry_run : bool) (process_tweet_text : option string) :
  (result_of (init user config dry_run process_tweet_text blank) = Returned tt <->
   TWITTER_API_KEY config = None) /\
  (TWITTER_API_KEY config <> None ->
   result_of (init user config dry_run process_tweet_text blank)
   = Raised (NameError (match GOOGLE_APPLICATION_CREDENTIALS config with
                        | None => "false"
                        | Some _ => "true"
                        end))) /\
  Forall (fun name =>
            lookup name
              (attributes (world_of (init user config dry_run process_tweet_text blank)))
            = None)
         ["use_image_signal"; "process_tweet_text"; "dry_run"] /\
  trace_of (init user config dry_run process_tweet_text blank) = [].
Proof.
  unfold init. destruct (TWITTER_API_KEY config) as [key|].
  - destruct (GOOGLE_APPLICATION_CREDENTIALS config) as [credentials|];
      (split; [split; discriminate|]); (split; [reflexivity|]);
      (split; [repeat constructor|reflexivity]).
  - split; [split; reflexivity|]. split; [congruence|].
    split; [repeat constructor|reflexivity].
Qed.

(** X19. [info] answers exactly when the eight attributes of its dict are
    all set, and it changes nothing. *)
Theorem info_needs_every_attribute (o : object) :
  ((exists d, result_of (info o) = Returned d) <->
   Forall (fun name => lookup name (attributes o) <> None) info_attributes) /\
  world_of (info o) = o /\ trace_of (info o) = [].
Proof.
  unfold info, info_attributes, result_of, world_of, trace_of, bind, getattr, ret.
  destruct (lookup "user" (attributes o)) eqn:E1; simpl;
    [|split; [split; [intros [d H]; discriminate H
                     |intros F; inversion F; congruence]|split; reflexivity]].
  destruct (lookup "crypto_rules" (attributes o)) eqn:E2; simpl;
    [|split; [split; [intros [d H]; discriminate H
                     |intros F; do 1 (inversion F as [|? ? _ F']; clear F; rename F' into F);
                      inversion F; congruence]|split; reflexivity]].
  destruct (lookup "bridge" (attributes o)) eqn:E3; simpl;
    [|split; [split; [intros [d H]; discriminate H
                     |intros F; do 2 (inversion F as [|? ? _ F']; clear F; rename F' into F);
                      inversion F; congruence]|split; reflexivity]].
  destruct (lookup "auto_buy_delay" (attributes o)) eqn:E4; simpl;
    [|split; [split; [intros [d H]; discriminate H
                     |intros F; do 3 (inversion F as [|? ? _ F']; clear F; rename F' into F);
                      inversion F; congruence]|split; reflexivity]].
  destruct (lookup "auto_sell_delay" (attributes o)) eqn:E5; simpl;
    [|split; [split; [intros [d H]; discriminate H
                     |intros F; do 4 (inversion F as [|? ? _ F']; clear F; rename F' into F);
                      inversion F; congruence]|split; reflexivity]].
  destruct (lookup "use_image_signal" (attributes o)) eqn:E6; simpl;
    [|split; [split; [intros [d H]; discriminate H
                     |intros F; do 5 (inversion F as [|? ? _ F']; clear F; rename F' into F);
                      inversion F; congruence]|split; reflexivity]].
  destruct (lookup "margin_type" (attributes o)) eqn:E7; simpl;
    [|split; [split; [intros [d H]; discriminate H
                     |intros F; do 6 (inversion F as [|? ? _ F']; clear F; rename F' into F);
                      inversion F; congruence]|split; reflexivity]].
  destruct (lookup "order_size" (attributes o)) eqn:E8; simpl;
    [|split; [split; [intros [d H]; discriminate H
                     |intros F; do 7 (inversion F as [|? ? _ F']; clear F; rename F' into F);
                      inversion F; congruence]|split; reflexivity]].
  split; [|split; reflexivity].
  split; [|eauto].
  intros _. repeat constructor; congruence.
Qed.

(** X20. The object that the constructor leaves without an API key cannot
    answer [info]: the first attribute of the dict, [user], is missing. *)
Theorem info_after_init_without_key (user : string) (config : Config)
    (dry_run : bool) (process_tweet_text : option string) :
  TWITTER_API_KEY config = None ->
  result_of (info (world_of (init user config dry_run process_tweet_text blank)))
  = Raised (AttributeError "user").
Proof. intros H. unfold init. rewrite H. reflexivity. Qed.

(* ================================================================== *)
(** ** The additional properties on concrete inputs *)

Lemma image_signal_off_never_calls_ocr_witness :
  use_image_signal (Demo.bot "max" false None) = false /\
  vision_calls
    (trace_of (tweet_has_crypto Demo.lib Demo.env (Demo.bot "max" false None)
                 Demo.picture_tweet (PCoin "USDT")
                 (Demo.network [] Demo.ocr_unreachable)))
  = [].
Proof.
  split; [reflexivity|].
  apply (@image_signal_off_never_calls_ocr _ Demo.lib Demo.env (Demo.bot "max" false None)).
  reflexivity.
Defined.

Lemma image_url_of_first_media_item_witness :
  image_url_of
    (JObj [("data", JObj [("text", JStr "Look at this")]);
           ("includes",
            JObj [("media", JArr [JObj [("url", JStr "https://pbs.twimg.com/media/E1.jpg")];
                                  JObj [("url", JStr "https://pbs.twimg.com/media/E2.jpg")]])])])
  = Returned (JStr "https://pbs.twimg.com/media/E1.jpg").
Proof.
  apply (proj2 (image_url_of_first_media_item
                  [("data", JObj [("text", JStr "Look at this")]);
                   ("includes",
                    JObj [("media",
                           JArr [JObj [("url", JStr "https://pbs.twimg.com/media/E1.jpg")];
                                 JObj [("url", JStr "https://pbs.twimg.com/media/E2.jpg")]])])]
                  [("media", JArr [JObj [("url", JStr "https://pbs.twimg.com/media/E1.jpg")];
                                   JObj [("url", JStr "https://pbs.twimg.com/media/E2.jpg")]])]
                  [("url", JStr "https://pbs.twimg.com/media/E1.jpg")]
                  [JObj [("url", JStr "https://pbs.twimg.com/media/E2.jpg")]])
               eq_refl).
  reflexivity.
Defined.

Lemma payload_without_text_raises_key_error_witness :
  tweet_has_crypto Demo.lib Demo.env (Demo.bot "max" true None) Demo.error_body
    (PCoin "USDT") (Demo.network [] Demo.ocr_unreachable)
  = (Raised (KeyError "data"), Demo.network [] Demo.ocr_unreachable,
     [EvInfo (MsgTweetReceived (JObj [("title", JStr "ConnectionException")]))]) /\
  tweet_has_crypto Demo.lib Demo.env (Demo.bot "max" true None) no_text_tweet
    (PCoin "USDT") (Demo.network [] Demo.ocr_unreachable)
  = (Raised (KeyError "text"), Demo.network [] Demo.ocr_unreachable,
     [EvInfo (MsgTweetReceived (JObj [("data", JObj [("id", JStr "1")])]))]).
Proof.
  split.
  - apply (proj1 (@payload_without_text_raises_key_error _ Demo.lib Demo.env
                    (Demo.bot "max" true None) Demo.error_body
                    [("title", JStr "ConnectionException")] [] (PCoin "USDT")
                    (Demo.network [] Demo.ocr_unreachable) eq_refl)).
    reflexivity.
  - apply (proj2 (@payload_without_text_raises_key_error _ Demo.lib Demo.env
                    (Demo.bot "max" true None) no_text_tweet
                    [("data", JObj [("id", JStr "1")])] [("id", JStr "1")] (PCoin "USDT")
                    (Demo.network [] Demo.ocr_unreachable) eq_refl)).
    + reflexivity.
    + reflexivity.
Defined.

(** X21 on a post without media with the image signal on, and on a post
    with a picture with the image signal off. *)
Lemma full_text_without_image_url_witness :
  full_text_of Demo.lib Demo.env (Demo.bot "max" true None) Demo.doge_tweet
    (Demo.network [] Demo.ocr_unreachable)
  = (Returned "Doge to the moon ", Demo.network [] Demo.ocr_unreachable,
     [EvInfo (MsgTweetReceived
                (JObj [("data", JObj [("text", JStr "Doge to the moon")])]))]) /\
  full_text_of Demo.lib Demo.env (Demo.bot "max" false None) Demo.picture_tweet
    (Demo.network [] Demo.ocr_unreachable)
  = (Returned "Look at this ", Demo.network [] Demo.ocr_unreachable,
     [EvInfo (MsgTweetReceived
                (JObj [("data", JObj [("text", JStr "Look at this")]);
                       ("includes",
                        JObj [("media",
                               JArr [JObj [("url",
                                            JStr "https://pbs.twimg.com/media/E1.jpg")]])])]))]).
Proof.
  split.
  - apply (@full_text_without_image_url _ Demo.lib Demo.env (Demo.bot "max" true None)
             Demo.doge_tweet
             (JObj [("data", JObj [("text", JStr "Doge to the moon")])])
             (JObj [("text", JStr "Doge to the moon")]) (JStr "") "Doge to the moon").
    + reflexivity.
    + reflexivity.
    + reflexivity.
    + reflexivity.
    + right. reflexivity.
  - apply (@full_text_without_image_url _ Demo.lib Demo.env (Demo.bot "max" false None)
             Demo.picture_tweet
             (JObj [("data", JObj [("text", JStr "Look at this")]);
                    ("includes",
                     JObj [("media",
                            JArr [JObj [("url",
                                         JStr "https://pbs.twimg.com/media/E1.jpg")]])])])
             (JObj [("text", JStr "Look at this")])
             (JStr "https://pbs.twimg.com/media/E1.jpg") "Look at this").
    + reflexivity.
    + reflexivity.
    + reflexivity.
    + reflexivity.
    + left. reflexivity.
Defined.

Lemma trade_as_annotated_witness :
  trade Demo.lib Demo.env (Demo.bot "max" false None) (PCoin "USDT") (PStr "DOGE")
    (Demo.account 2 100 100 25 (Ok (Some "bought")) (Ok (Some "sold")))
  = (Raised (AttributeError "symbol"),
     Demo.account 2 100 100 25 (Ok (Some "bought")) (Ok (Some "sold")),
     [EvSleep 10]).
Proof.
  apply (@trade_as_annotated _ Demo.lib Demo.env (Demo.bot "max" false None)).
  discriminate.
Defined.

Lemma trade_returns_none_only_without_purchase_witness :
  exists sym quantity,
    order_calls
      (trace_of (trade Demo.lib Demo.env (Demo.bot "max" false None)
                   (PStr "DOGE") (PCoin "USDT")
                   (Demo.account 2 100 100 25 (Ok None) (Ok (Some "sold")))))
    = [EvBuy quantity (PStr "DOGE") (PStr sym) (Ok None)].
Proof.
  destruct (@trade_returns_none_only_without_purchase _ Demo.lib Demo.env
              (Demo.bot "max" false None) (PStr "DOGE") (PCoin "USDT")
              (Demo.account 2 100 100 25 (Ok None) (Ok (Some "sold"))) eq_refl)
    as [(a & t & _ & _ & H)|H].
  - discriminate H.
  - exact H.
Defined.

Lemma trade_sells_the_available_amount_witness :
  exists a,
    In (EvGetAvailableAsset (PCoin "USDT") (PCoin "USDT") (Ok (a, 25)))
       (trace_of (trade Demo.lib Demo.env (Demo.bot "max" false None)
                    (PStr "DOGE") (PCoin "USDT")
                    (Demo.account 2 100 100 25 (Ok (Some "bought")) (Ok (Some "sold"))))).
Proof.
  apply (@trade_sells_the_available_amount _ Demo.lib Demo.env (Demo.bot "max" false None)
           (PStr "DOGE") (PCoin "USDT")
           (Demo.account 2 100 100 25 (Ok (Some "bought")) (Ok (Some "sold")))
           25%Q (PCoin "USDT") (PCoin "USDT") (Ok (Some "sold"))).
  vm_compute. auto 20.
Defined.

Lemma buy_raises_without_order_witness :
  order_calls
    (trace_of (buy Demo.lib Demo.env (Demo.bot "2.5" false None)
                 (PCoin "USDT") (PStr "DOGE")
                 (Demo.account 2 100 100 25 (Ok (Some "bought")) (Ok (Some "sold")))))
  = [] \/
  exists sym quantity what,
    ValueError (OrderSizeExceedsMaxMargin "2.5" 2) = External what /\
    order_calls
      (trace_of (buy Demo.lib Demo.env (Demo.bot "2.5" false None)
                   (PCoin "USDT") (PStr "DOGE")
                   (Demo.account 2 100 100 25 (Ok (Some "bought")) (Ok (Some "sold")))))
    = [EvBuy quantity (PStr "DOGE") (PStr sym) (Fails what)].
Proof.
  apply (@buy_raises_without_order _ Demo.lib Demo.env (Demo.bot "2.5" false None)
           (PCoin "USDT") (PStr "DOGE")
           (Demo.account 2 100 100 25 (Ok (Some "bought")) (Ok (Some "sold")))).
  reflexivity.
Defined.

(** X12 on an account with 1 USDT and nothing to borrow, at an ask price
    of 3: the quantity is one third to 28 digits. *)
Lemma buy_max_order_size_witness :
  round28 (round28 (1 + 0) / 3) = (3333333333333333333333333333 # 10000000000000000000000000000)%Q /\
  exists answer,
    In (EvBuy (round28 (round28 (1 + 0) / 3)) (PStr "DOGE") (PStr "USDT") answer)
       (trace_of (buy Demo.lib Demo.env (Demo.bot "max" false None)
                    (PCoin "USDT") (PStr "DOGE")
                    (Demo.account 3 1 0 25 (Ok (Some "bought")) (Ok (Some "sold"))))) /\
    result_of (buy Demo.lib Demo.env (Demo.bot "max" false None)
                 (PCoin "USDT") (PStr "DOGE")
                 (Demo.account 3 1 0 25 (Ok (Some "bought")) (Ok (Some "sold"))))
    = outcome_of_reply answer.
Proof.
  split; [vm_compute; reflexivity|].
  apply (@buy_max_order_size _ Demo.lib Demo.env (Demo.bot "max" false None)
           (PCoin "USDT") (PStr "DOGE")
           (Demo.account 3 1 0 25 (Ok (Some "bought")) (Ok (Some "sold")))
           (PStr "USDT") (PStr "DOGE") 3%Q 1%Q 0%Q 0%Q).
  - reflexivity.
  - vm_compute. auto.
  - vm_compute. auto.
  - vm_compute. auto.
  - discriminate.
Defined.

(** X24 on the account with 100 USDT available and 100 to borrow: the
    order size ["2.5"] is rejected, ["0.5"] spends 50 for an order of 25. *)
Lemma buy_fraction_checked_as_float_witness :
  (result_of (buy Demo.lib Demo.env (Demo.bot "2.5" false None)
                (PCoin "USDT") (PStr "DOGE")
                (Demo.account 2 100 100 25 (Ok (Some "bought")) (Ok (Some "sold"))))
   = Raised (ValueError (OrderSizeExceedsMaxMargin "2.5"
                           (round28 (round28 (100 + 100) / 100)))) /\
   order_calls
     (trace_of (buy Demo.lib Demo.env (Demo.bot "2.5" false None)
                  (PCoin "USDT") (PStr "DOGE")
                  (Demo.account 2 100 100 25 (Ok (Some "bought")) (Ok (Some "sold")))))
   = []) /\
  (total_cash Demo.lib (Demo.bot "0.5" false None) 100 100
   = Returned (round28 (100 * (5 # 10))) /\
   round28 (100 * (5 # 10)) = 50%Q /\
   round28 (round28 (100 * (5 # 10)) / 2) = 25%Q /\
   exists answer,
     In (EvBuy (round28 (round28 (100 * (5 # 10)) / 2)) (PStr "DOGE") (PStr "USDT") answer)
        (trace_of (buy Demo.lib Demo.env (Demo.bot "0.5" false None)
                     (PCoin "USDT") (PStr "DOGE")
                     (Demo.account 2 100 100 25 (Ok (Some "bought")) (Ok (Some "sold"))))) /\
     result_of (buy Demo.lib Demo.env (Demo.bot "0.5" false None)
                  (PCoin "USDT") (PStr "DOGE")
                  (Demo.account 2 100 100 25 (Ok (Some "bought")) (Ok (Some "sold"))))
     = outcome_of_reply answer).
Proof.
  split.
  - refine (proj1 (@buy_fraction_checked_as_float _ Demo.lib Demo.env
                     (Demo.bot "2.5" false None) (PCoin "USDT") (PStr "DOGE")
                     (Demo.account 2 100 100 25 (Ok (Some "bought")) (Ok (Some "sold")))
                     (PStr "USDT") (PStr "DOGE") 100 0 100 (5 # 2) (25 # 10)
                     _ eq_refl eq_refl _ _) _).
    + intros H. discriminate H.
    + vm_compute. auto.
    + vm_compute. auto.
    + vm_compute. reflexivity.
  - destruct (proj2 (@buy_fraction_checked_as_float _ Demo.lib Demo.env
                     (Demo.bot "0.5" false None) (PCoin "USDT") (PStr "DOGE")
                     (Demo.account 2 100 100 25 (Ok (Some "bought")) (Ok (Some "sold")))
                     (PStr "USDT") (PStr "DOGE") 100 0 100 (1 # 2) (5 # 10)
                     ltac:(intros H; discriminate H) eq_refl eq_refl
                     ltac:(vm_compute; auto) ltac:(vm_compute; auto))
                    ltac:(vm_compute; discriminate)) as [Ht Hb].
    split; [exact Ht|]. split; [vm_compute; reflexivity|].
    split; [vm_compute; reflexivity|].
    apply (Hb (PStr "DOGE") (PStr "USDT") 2%Q).
    + vm_compute. auto.
    + intros H. discriminate H.
Defined.

Lemma negative_sell_delay_leaves_the_purchase_witness :
  result_of (trade Demo.lib Demo.env impatient_bot (PStr "DOGE") (PCoin "USDT")
               (Demo.account 2 100 100 25 (Ok (Some "bought")) (Ok (Some "sold"))))
  = Raised (ValueError NegativeSleepLength) /\
  order_calls
    (trace_of (trade Demo.lib Demo.env impatient_bot (PStr "DOGE") (PCoin "USDT")
                 (Demo.account 2 100 100 25 (Ok (Some "bought")) (Ok (Some "sold")))))
  = [EvBuy 100 (PStr "DOGE") (PStr "USDT") (Ok (Some "bought"))].
Proof.
  apply (@negative_sell_delay_leaves_the_purchase _ Demo.lib Demo.env impatient_bot
           (PStr "DOGE") (PCoin "USDT")
           (Demo.account 2 100 100 25 (Ok (Some "bought")) (Ok (Some "sold")))).
  - reflexivity.
  - vm_compute. auto 10.
Defined.

Lemma answered_connection_events_witness :
  trace_of (has_crypto_tweet Demo.lib Demo.env (Demo.bot "max" false None) 86400 1
              (Demo.network [Ok Demo.too_many_connections] Demo.ocr_unreachable))
  = [EvResetRules "elonmusk";
     EvHttpGet (Ok Demo.too_many_connections);
     EvInfo (MsgSubscribing 429);
     EvError (MsgCannotGetStream 429 Demo.error_body);
     EvInfo MsgSleepingAndRetrying;
     EvSleep 60].
Proof.
  apply (@answered_connection_events _ Demo.lib Demo.env (Demo.bot "max" false None)
           86400%Z 0%nat
           (Demo.network [Ok Demo.too_many_connections] Demo.ocr_unreachable)
           (Demo.network [Ok Demo.too_many_connections] Demo.ocr_unreachable)
           (Demo.network [] Demo.ocr_unreachable)
           Demo.too_many_connections);
    reflexivity.
Defined.

Lemma failed_request_is_not_retried_witness :
  has_crypto_tweet Demo.lib Demo.env (Demo.bot "max" false None) 86400 1
    (Demo.network [Fails "ConnectionError"; Ok (Demo.stream [])] Demo.ocr_unreachable)
  = (Raised (External "ConnectionError"),
     Demo.network [Ok (Demo.stream [])] Demo.ocr_unreachable,
     [EvResetRules "elonmusk"; EvHttpGet (Fails "ConnectionError")]).
Proof.
  apply (@failed_request_is_not_retried _ Demo.lib Demo.env (Demo.bot "max" false None)
           86400%Z 0%nat
           (Demo.network [Fails "ConnectionError"; Ok (Demo.stream [])] Demo.ocr_unreachable)
           (Demo.network [Fails "ConnectionError"; Ok (Demo.stream [])] Demo.ocr_unreachable));
    reflexivity.
Defined.

Lemma init_completes_only_without_key_witness :
  result_of (init "elonmusk" (demo_config (Some "key") None None) false None blank)
  = Raised (NameError "false") /\
  result_of (init "elonmusk" (demo_config (Some "key") (Some "credentials.json") None)
               false None blank)
  = Raised (NameError "true").
Proof.
  split.
  - apply (proj1 (proj2 (init_completes_only_without_key "elonmusk"
                           (demo_config (Some "key") None None) false None))).
    discriminate.
  - apply (proj1 (proj2 (init_completes_only_without_key "elonmusk"
                           (demo_config (Some "key") (Some "credentials.json") None)
                           false None))).
    discriminate.
Defined.

Lemma info_after_init_without_key_witness :
  result_of (info (world_of (init "elonmusk" (demo_config None None None) false None blank)))
  = Raised (AttributeError "user").
Proof.
  apply (info_after_init_without_key "elonmusk" (demo_config None None None) false None).
  reflexivity.
Defined.
